(** * Watering_System_V_5.1.ino: the scheduler and its safety interlock

    A shallow embedding of the Arduino sketch.  The sketch is one
    cooperative loop with three blocking waits; the embedding cuts it at
    the head of each wait, so that a control point and the globals make up
    the machine state, and one [step] runs the code from one control point
    to the next.  Every [rtc.getTime()] and every [digitalRead] consumes
    one sample of an input oracle, in program order. *)

From stdpp Require Import base option list gmap strings.
From Stdlib Require Import ZArith Lia.

Local Open Scope Z_scope.

(** ** Machine integers of the AVR target *)

(** [int] is 16 bits wide, [long] 32 bits, a pin number is a [uint8_t]. *)
Definition int16 (z : Z) : Z := (z + 32768) `mod` 65536 - 32768.
Definition int32 (z : Z) : Z := (z + 2147483648) `mod` 4294967296 - 2147483648.
Definition uint8 (z : Z) : Z := z `mod` 256.

Definition in_long (z : Z) : Prop := -2147483648 <= z <= 2147483647.

(** Pin levels: [HIGH] is [true], [LOW] is [false]. *)
Definition HIGH : bool := true.
Definition LOW : bool := false.

(** ** The real-time clock (DS3231 library)

    The library is not part of the repository.  The sketch uses its [Time]
    values only through [rtc.getUnixTime] (and through fields that are
    printed), so both are taken as an interface; [Time_ctor] is the value
    of a default-constructed [Time]. *)
Class Clock := {
  Time : Type;
  Time_ctor : Time;
  getUnixTime : Time -> Z
}.

(** ** Constants of the sketch *)

Definition ERR_WATER_TIME : Z := 300.
Definition LCD_CHANGE_TIME : Z := 4000.
Definition numPlants : Z := 3.
Definition statusLED : Z := 9.
Definition errorLED : Z := 8.
Definition errorResetButton : Z := 10.
Definition switchPin : Z := 13.

(** Control points: the top of [loop()] and the heads of its three
    blocking [while] loops (lines 151, 174 and 233). *)
Inductive Pc : Set := IDLE | CONFIRMING | WATERING | ERROR.

Section Sketch.
Context `{Clock}.

Record Plant := mkPlant {
  name : string;
  pumpPin : Z;
  lightPin : Z;
  maxDryTime : Z;
  waterTime : Z;
  buttonPin : Z;
  lastWatered : Time;
  lastWateredFor : Z;
  needsWater : bool
}.

Definition nullTime : Time := Time_ctor.

Definition gBonsai : Plant := mkPlant "LEFT BONSAI" 6 4 7200 180 12 nullTime 0 false.
Definition bBonsai : Plant := mkPlant "RIGHT BONSAI" 7 3 4320 180 11 nullTime 0 false.
Definition succulent : Plant := mkPlant "SUCCULENT" (-1) 2 10080 90 10 nullTime 0 false.

Definition with_lastWatered (t : Time) (p : Plant) : Plant :=
  mkPlant (name p) (pumpPin p) (lightPin p) (maxDryTime p) (waterTime p)
          (buttonPin p) t (lastWateredFor p) (needsWater p).
Definition with_lastWateredFor (d : Z) (p : Plant) : Plant :=
  mkPlant (name p) (pumpPin p) (lightPin p) (maxDryTime p) (waterTime p)
          (buttonPin p) (lastWatered p) d (needsWater p).
Definition with_needsWater (b : bool) (p : Plant) : Plant :=
  mkPlant (name p) (pumpPin p) (lightPin p) (maxDryTime p) (waterTime p)
          (buttonPin p) (lastWatered p) (lastWateredFor p) b.

(** What the LCD was last asked to show.  The text layout is left out;
    [PlantReport r] keeps the record handed to [lcdPrint], with [None]
    for a read outside the [plants] array. *)
Inductive Screen :=
  | Cleared
  | ReleasePrompt
  | WateringBanner (n : string) (secs : option Z)
  | ErrorBanner
  | PlantReport (r : option Plant).

(** The globals of the sketch, the output pins, and the control point.
    [wateringTime] is the local of the watering block, which lives across
    the iterations of its loop; [reads] counts the input samples taken. *)
Record State := mkState {
  plants : list Plant;
  error : bool;
  watering : bool;
  plantCounter : Z;
  currentPlant : Plant;
  lcdCounter : Z;
  lcdLastChange : Time;
  waterStartTime : Time;
  currentTime : Time;
  wateringTime : Z;
  pins : gmap Z bool;
  screen : Screen;
  reads : nat;
  pc : Pc
}.

Definition set_plants v s := mkState v (error s) (watering s) (plantCounter s) (currentPlant s) (lcdCounter s) (lcdLastChange s) (waterStartTime s) (currentTime s) (wateringTime s) (pins s) (screen s) (reads s) (pc s).
Definition set_error v s := mkState (plants s) v (watering s) (plantCounter s) (currentPlant s) (lcdCounter s) (lcdLastChange s) (waterStartTime s) (currentTime s) (wateringTime s) (pins s) (screen s) (reads s) (pc s).
Definition set_watering v s := mkState (plants s) (error s) v (plantCounter s) (currentPlant s) (lcdCounter s) (lcdLastChange s) (waterStartTime s) (currentTime s) (wateringTime s) (pins s) (screen s) (reads s) (pc s).
Definition set_plantCounter v s := mkState (plants s) (error s) (watering s) v (currentPlant s) (lcdCounter s) (lcdLastChange s) (waterStartTime s) (currentTime s) (wateringTime s) (pins s) (screen s) (reads s) (pc s).
Definition set_currentPlant v s := mkState (plants s) (error s) (watering s) (plantCounter s) v (lcdCounter s) (lcdLastChange s) (waterStartTime s) (currentTime s) (wateringTime s) (pins s) (screen s) (reads s) (pc s).
Definition set_lcdCounter v s := mkState (plants s) (error s) (watering s) (plantCounter s) (currentPlant s) v (lcdLastChange s) (waterStartTime s) (currentTime s) (wateringTime s) (pins s) (screen s) (reads s) (pc s).
Definition set_lcdLastChange v s := mkState (plants s) (error s) (watering s) (plantCounter s) (currentPlant s) (lcdCounter s) v (waterStartTime s) (currentTime s) (wateringTime s) (pins s) (screen s) (reads s) (pc s).
Definition set_waterStartTime v s := mkState (plants s) (error s) (watering s) (plantCounter s) (currentPlant s) (lcdCounter s) (lcdLastChange s) v (currentTime s) (wateringTime s) (pins s) (screen s) (reads s) (pc s).
Definition set_currentTime v s := mkState (plants s) (error s) (watering s) (plantCounter s) (currentPlant s) (lcdCounter s) (lcdLastChange s) (waterStartTime s) v (wateringTime s) (pins s) (screen s) (reads s) (pc s).
Definition set_wateringTime v s := mkState (plants s) (error s) (watering s) (plantCounter s) (currentPlant s) (lcdCounter s) (lcdLastChange s) (waterStartTime s) (currentTime s) v (pins s) (screen s) (reads s) (pc s).
Definition set_pins v s := mkState (plants s) (error s) (watering s) (plantCounter s) (currentPlant s) (lcdCounter s) (lcdLastChange s) (waterStartTime s) (currentTime s) (wateringTime s) v (screen s) (reads s) (pc s).
Definition set_screen v s := mkState (plants s) (error s) (watering s) (plantCounter s) (currentPlant s) (lcdCounter s) (lcdLastChange s) (waterStartTime s) (currentTime s) (wateringTime s) (pins s) v (reads s) (pc s).
Definition set_reads v s := mkState (plants s) (error s) (watering s) (plantCounter s) (currentPlant s) (lcdCounter s) (lcdLastChange s) (waterStartTime s) (currentTime s) (wateringTime s) (pins s) (screen s) v (pc s).
Definition set_pc v s := mkState (plants s) (error s) (watering s) (plantCounter s) (currentPlant s) (lcdCounter s) (lcdLastChange s) (waterStartTime s) (currentTime s) (wateringTime s) (pins s) (screen s) (reads s) v.

(** The inputs: the [n]-th sample taken is a clock reading when the code
    calls [rtc.getTime()] there, and a pin level when it calls
    [digitalRead]. *)
Record World := mkWorld {
  clock_at : nat -> Time;
  level_at : nat -> Z -> bool
}.

(** ** The state monad of the sketch *)

Definition M (A : Type) : Type := State -> A * State.

Definition ret {A} (a : A) : M A := fun s => (a, s).
Definition bind {A B} (m : M A) (k : A -> M B) : M B :=
  fun s => let (a, s') := m s in k a s'.
Definition gets {A} (f : State -> A) : M A := fun s => (f s, s).
Definition modify (f : State -> State) : M unit := fun s => (tt, f s).

Notation "x <- m ;; k" := (bind m (fun x => k))
  (at level 100, m at level 99, k at level 200, right associativity).
Notation "m ;;; k" := (bind m (fun _ => k))
  (at level 100, k at level 200, right associativity).

(** The level an output pin reads; a pin never written reads [LOW]. *)
Definition pin_level (ps : gmap Z bool) (pin : Z) : bool :=
  default LOW (ps !! uint8 pin).

Section Io.
Variable w : World.

Definition rtc_getTime : M Time :=
  fun s => (clock_at w (reads s), set_reads (S (reads s)) s).
Definition digitalRead (pin : Z) : M bool :=
  fun s => (level_at w (reads s) (uint8 pin), set_reads (S (reads s)) s).
Definition digitalWrite (pin : Z) (v : bool) : M unit :=
  modify (fun s => set_pins (<[uint8 pin := v]> (pins s)) s).
Definition lcd_show (x : Screen) : M unit := modify (set_screen x).
Definition goto (l : Pc) : M unit := modify (set_pc l).

(** [elapsedTime], lines 271-273: a [long] difference divided by 1000,
    the division truncating towards zero. *)
Definition elapsedTime (endTime startTime : Time) : Z :=
  int32 (getUnixTime endTime - getUnixTime startTime) `quot` 1000.

(** [plants[i]]; [None] outside the array. *)
Definition read_plant (ps : list Plant) (i : Z) : option Plant :=
  if i <? 0 then None else ps !! Z.to_nat i.

(** [for (int i = 0; i < numPlants; i++) body(i)], counting up from [i]
    for [n] rounds. *)
Fixpoint for_from (n : nat) (i : Z) (body : Z -> M unit) : M unit :=
  match n with
  | O => ret tt
  | S n' => body i;;; for_from n' (i + 1) body
  end.
Definition for_plants (body : Z -> M unit) : M unit :=
  for_from (Z.to_nat numPlants) 0 body.

(** ** [lcdPrint], lines 278-333

    It reads the clock twice into the global [currentTime] and draws the
    report of the record it is given. *)
Definition lcdPrint (r : option Plant) : M unit :=
  t <- rtc_getTime;;
  modify (set_currentTime t);;;
  t' <- rtc_getTime;;
  modify (set_currentTime t');;;
  lcd_show (PlantReport r).

(** ** [loop()], cut at its blocking waits *)

(** Lines 242-250: the display rotation; it ends the pass of [loop()]. *)
Definition handle_lcd : M unit :=
  ct <- gets currentTime;;
  lc <- gets lcdLastChange;;
  (if LCD_CHANGE_TIME <=? elapsedTime ct lc then
     c <- gets lcdCounter;;
     modify (set_lcdCounter (int16 (c + 1)));;;
     c' <- gets lcdCounter;;
     (if c' =? numPlants then modify (set_lcdCounter 0) else ret tt);;;
     lcd_show Cleared
   else ret tt);;;
  c <- gets lcdCounter;;
  ps <- gets plants;;
  lcdPrint (read_plant ps c);;;
  goto IDLE.

(** Lines 216-219: every pump pin of the registry is written low. *)
Definition pumps_off : M unit :=
  for_plants (fun i =>
    ps <- gets plants;;
    match read_plant ps i with
    | Some p => digitalWrite (pumpPin p) LOW
    | None => ret tt
    end).

(** Lines 211-231: entering the error mode, up to the head of the wait
    for the reset button; without an error, on to the display. *)
Definition handle_error : M unit :=
  e <- gets error;;
  if e then
    digitalWrite errorLED HIGH;;;
    pumps_off;;;
    lcd_show ErrorBanner;;;
    goto ERROR
  else handle_lcd.

(** Lines 233-239: one round of [while(error)]. *)
Definition error_wait : M unit :=
  b <- digitalRead errorResetButton;;
  if negb b then
    modify (set_error false);;;
    lcd_show Cleared;;;
    handle_lcd
  else goto ERROR.

(** Lines 196-202: after the watering loop. *)
Definition finish_watering : M unit :=
  cp <- gets currentPlant;;
  digitalWrite (pumpPin cp) LOW;;;
  lcd_show Cleared;;;
  wst <- gets waterStartTime;;
  modify (fun s => set_currentPlant (with_lastWatered wst (currentPlant s)) s);;;
  wt <- gets wateringTime;;
  modify (fun s => set_currentPlant (with_lastWateredFor (int16 wt) (currentPlant s)) s);;;
  handle_error.

(** Lines 174-194: one round of [while (watering)]. *)
Definition watering_round : M unit :=
  t <- rtc_getTime;;
  modify (set_currentTime t);;;
  wst <- gets waterStartTime;;
  modify (set_wateringTime (elapsedTime t wst));;;
  wt <- gets wateringTime;;
  cp <- gets currentPlant;;
  stop <- (if waterTime cp <=? wt then ret true
           else b <- digitalRead (buttonPin cp);; ret (negb b));;
  if stop then
    modify (set_watering false);;;
    finish_watering
  else if ERR_WATER_TIME <=? wt then
    modify (set_error true);;;
    modify (set_watering false);;;
    finish_watering
  else
    ct <- gets currentTime;;
    lcd_show (WateringBanner (name cp) (Some (elapsedTime ct wst)));;;
    goto WATERING.

(** Lines 158-172 and 204-209: the [if (watering)] after the button
    check, up to the head of the watering loop, and its [else]. *)
Definition after_button : M unit :=
  wg <- gets watering;;
  if wg then
    cp <- gets currentPlant;;
    digitalWrite (pumpPin cp) HIGH;;;
    lcd_show (WateringBanner (name cp) None);;;
    modify (set_wateringTime 0);;;
    t <- rtc_getTime;;
    modify (set_waterStartTime t);;;
    goto WATERING
  else
    c <- gets plantCounter;;
    modify (set_plantCounter (int16 (c + 1)));;;
    c' <- gets plantCounter;;
    (if numPlants <=? c' then modify (set_plantCounter 0) else ret tt);;;
    handle_error.

(** Lines 150-156: one test of the wait for the button's release. *)
Definition release_wait : M unit :=
  cp <- gets currentPlant;;
  b <- digitalRead (buttonPin cp);;
  if negb b then goto CONFIRMING
  else
    modify (set_watering true);;;
    lcd_show Cleared;;;
    after_button.

(** Lines 118-149: the scan of the plant under the cursor.  The read
    [plants[plantCounter]] is inside the array in every state the sketch
    reaches ([plantCounter_in_range] below); outside it the model keeps
    the old [currentPlant]. *)
Definition scan : M unit :=
  ps <- gets plants;;
  c <- gets plantCounter;;
  match read_plant ps c with
  | Some p => modify (set_currentPlant p)
  | None => ret tt
  end;;;
  t <- rtc_getTime;;
  modify (set_currentTime t);;;
  cp <- gets currentPlant;;
  modify (set_currentPlant
            (with_needsWater (maxDryTime cp <=? elapsedTime t (lastWatered cp)) cp));;;
  cp <- gets currentPlant;;
  digitalWrite (lightPin cp) (needsWater cp);;;
  b <- digitalRead (buttonPin cp);;
  if negb b then
    lcd_show ReleasePrompt;;;
    goto CONFIRMING
  else after_button.

(** One step: from a control point to the next one. *)
Definition step (s : State) : State :=
  snd (match pc s with
       | IDLE => scan
       | CONFIRMING => release_wait
       | WATERING => watering_round
       | ERROR => error_wait
       end s).

Fixpoint steps (n : nat) (s : State) : State :=
  match n with
  | O => s
  | S n' => steps n' (step s)
  end.

(** ** [setup()] and the state at power-on *)

Definition power_on : State :=
  mkState [gBonsai; bBonsai; succulent] false false 0 (mkPlant "" 0 0 0 0 0 Time_ctor 0 false)
          numPlants Time_ctor Time_ctor Time_ctor 0 ∅ Cleared O IDLE.

(** Lines 85-115; pin modes and the serial port are left out. *)
Definition setup : M unit :=
  lcd_show Cleared;;;
  digitalWrite errorLED LOW;;;
  t <- rtc_getTime;;
  modify (set_lcdLastChange t);;;
  for_plants (fun i =>
    t <- rtc_getTime;;
    modify (fun s => set_plants (alter (with_lastWatered t) (Z.to_nat i) (plants s)) s)).

Definition boot : State := snd (setup power_on).

(** The states the sketch can be in: [boot], closed under [step]. *)
Inductive reachable : State -> Prop :=
  | reach_boot : reachable boot
  | reach_step s : reachable s -> reachable (step s).

(** ** The segments in closed form

    The states and values that the segments of [loop()] compute, named so
    that the lemmas below can speak of them. *)

(** Lines 243-247: the display cursor after the rotation test. *)
Definition lcd_next (s : State) : Z :=
  if LCD_CHANGE_TIME <=? elapsedTime (currentTime s) (lcdLastChange s) then
    if int16 (lcdCounter s + 1) =? numPlants then 0 else int16 (lcdCounter s + 1)
  else lcdCounter s.

(** Line 218, for one index. *)
Definition pump_off (ps : list Plant) (i : Z) (pn : gmap Z bool) : gmap Z bool :=
  match read_plant ps i with
  | Some p => <[uint8 (pumpPin p) := LOW]> pn
  | None => pn
  end.

(** Lines 213-231. *)
Definition error_entry (s : State) : State :=
  set_pc ERROR (set_screen ErrorBanner
    (set_pins (pump_off (plants s) 2 (pump_off (plants s) 1 (pump_off (plants s) 0
                 (<[uint8 errorLED := HIGH]> (pins s))))) s)).

(** Lines 197-202. *)
Definition finished (s : State) : State :=
  set_currentPlant
    (with_lastWateredFor (int16 (wateringTime s))
       (with_lastWatered (waterStartTime s) (currentPlant s)))
    (set_screen Cleared
       (set_pins (<[uint8 (pumpPin (currentPlant s)) := LOW]> (pins s)) s)).

(** Lines 175-176: a watering round once the clock is sampled. *)
Definition sampled (s : State) : State :=
  set_wateringTime (elapsedTime (clock_at w (reads s)) (waterStartTime s))
    (set_currentTime (clock_at w (reads s)) (set_reads (S (reads s)) s)).

(** Lines 205-208. *)
Definition advanced (c : Z) : Z :=
  if numPlants <=? int16 (c + 1) then 0 else int16 (c + 1).

(** Lines 159-172. *)
Definition pumping (s : State) : State :=
  set_pc WATERING
    (set_waterStartTime (clock_at w (reads s))
       (set_reads (S (reads s))
          (set_wateringTime 0
             (set_screen (WateringBanner (name (currentPlant s)) None)
                (set_pins (<[uint8 (pumpPin (currentPlant s)) := HIGH]> (pins s)) s))))).

(** Lines 118-136: the record the scan works on, the dryness test, and
    the state once the light is set and the button sampled. *)
Definition scanned_plant (s : State) : Plant :=
  default (currentPlant s) (read_plant (plants s) (plantCounter s)).
Definition is_due (s : State) : bool :=
  maxDryTime (scanned_plant s)
    <=? elapsedTime (clock_at w (reads s)) (lastWatered (scanned_plant s)).
Definition scanned (s : State) : State :=
  set_reads (S (S (reads s)))
    (set_pins (<[uint8 (lightPin (scanned_plant s)) := is_due s]> (pins s))
       (set_currentPlant (with_needsWater (is_due s) (scanned_plant s))
          (set_currentTime (clock_at w (reads s)) s))).

(** ** The invariant of the shipped configuration *)

(** The registry is the three plants of lines 30-32, whatever their
    [lastWatered] times. *)
Definition registry_ok (ps : list Plant) : Prop :=
  exists t0 t1 t2,
    ps = [with_lastWatered t0 gBonsai; with_lastWatered t1 bBonsai;
          with_lastWatered t2 succulent].

(** The three pump pins, as [digitalWrite] sees them, do not read high. *)
Definition pumps_low (pn : gmap Z bool) : Prop :=
  pn !! 6 <> Some HIGH /\ pn !! 7 <> Some HIGH /\ pn !! 255 <> Some HIGH.

(** Only the pump pin of [cp] may read high. *)
Definition others_low (cp : Plant) (pn : gmap Z bool) : Prop :=
  forall k, k = 6 \/ k = 7 \/ k = 255 -> k <> uint8 (pumpPin cp) -> pn !! k <> Some HIGH.

(** The working record carries the pins and the duration of a registry
    entry. *)
Definition from_registry (cp : Plant) : Prop :=
  (pumpPin cp = 6 \/ pumpPin cp = 7 \/ pumpPin cp = -1) /\ waterTime cp <= 180.

Definition inv (s : State) : Prop :=
  registry_ok (plants s) /\
  0 <= plantCounter s < numPlants /\
  error s = false /\
  match pc s with
  | IDLE => watering s = false /\ pumps_low (pins s)
  | CONFIRMING =>
      watering s = false /\ pumps_low (pins s) /\ from_registry (currentPlant s)
  | WATERING =>
      watering s = true /\ from_registry (currentPlant s) /\
      others_low (currentPlant s) (pins s)
  | ERROR => False
  end.

(** The registry entries whose pump pin reads high. *)
Definition pumps_on (s : State) : list Plant :=
  List.filter (fun p => pin_level (pins s) (pumpPin p)) (plants s).

(** ** The report of [lcdPrint], lines 281-332

    What [lcdPrint] draws for a record, given its two clock readings:
    the three droplet icons of row 0, the last-watered lines of rows 1
    and 2 (drawn only for a plant with a pump), and row 3.  The text of
    [timeOutput] is left out; the report keeps the time handed to it. *)
Inductive Glyph : Set := Drop | NoDrop.

Inductive BottomRow :=
  | NeedsWaterBanner
  | HoursLeft (left total : Z).

Record Report := mkReport {
  title : string;
  droplet1 : Glyph;
  droplet2 : Glyph;
  droplet3 : Glyph;
  history : option (Time * Z);
  bottom_row : BottomRow
}.

(** [(double)n < num/den] for a [long] [n] and a constant [num/den]
    between 0 and 1: the conversion is monotone and exact on 0 and 1, so
    the test is the one on the rationals, written with integers. *)
Definition double_lt (n num den : Z) : bool := n * den <? num.

Definition droplet (n num den : Z) : Glyph :=
  if double_lt n num den then Drop else NoDrop.

Definition lcd_report (t1 t2 : Time) (p : Plant) : Report :=
  mkReport
    (name p)
    (droplet (elapsedTime t1 (lastWatered p)) 1 1)
    (droplet (elapsedTime t1 (lastWatered p)) 67 100)
    (droplet (elapsedTime t1 (lastWatered p)) 33 100)
    (if 0 <=? pumpPin p then Some (lastWatered p, lastWateredFor p) else None)
    (if needsWater p then NeedsWaterBanner
     else HoursLeft
            (int32 (int16 (maxDryTime p * 3600) - elapsedTime t2 (lastWatered p))
               `quot` 3600)
            (maxDryTime p)).

(** ** The pins the plants use *)

(** [k] is, as [digitalWrite] sees it, the pump pin or the light pin of
    the working record or of a registry entry. *)
Definition plant_pin (s : State) (k : Z) : Prop :=
  exists p, p ∈ currentPlant s :: plants s /\
            (k = uint8 (pumpPin p) \/ k = uint8 (lightPin p)).

End Io.
End Sketch.

Arguments mkPlant {_} _ _ _ _ _ _ _ _ _.
Arguments mkState {_} _ _ _ _ _ _ _ _ _ _ _ _ _ _.
Arguments mkWorld {_} _ _.
Arguments mkReport {_} _ _ _ _ _ _.

(** ** A concrete clock and concrete runs

    A clock whose [Time] values are their own unix seconds; the runs
    below are the inputs at which single behaviours are evaluated. *)
Definition unix_clock : Clock :=
  {| Time := Z; Time_ctor := 0; getUnixTime := fun t => t |}.

(** No button is ever pressed; the clock stands at the boot time. *)
Definition quiet_world : @World unix_clock :=
  @mkWorld unix_clock (fun _ => 1000000) (fun _ _ => HIGH).

(** A registry whose first plant has a target above [ERR_WATER_TIME],
    in a session that started at 2000000; the clock then reads 2300000,
    which [elapsedTime] turns into 300. *)
Definition fern : @Plant unix_clock :=
  @mkPlant unix_clock "FERN" 5 1 7200 400 12 1000000 0 false.
Definition overrun_state : @State unix_clock :=
  @mkState unix_clock [fern; bBonsai; succulent] false true 0 fern 0 1000000 2000000
          2000000 0 (<[5 := HIGH]> ∅) (WateringBanner "FERN" None) 0 WATERING.
Definition overrun_world : @World unix_clock :=
  @mkWorld unix_clock (fun _ => 2300000) (fun _ _ => HIGH).

(** The error wait reached from there. *)
Definition latched_state : @State unix_clock := step overrun_world overrun_state.

(** A session on the left bonsai in the shipped configuration.  Samples
    0-3 are the clock reads of [setup()]; the scan reads the clock (4)
    and finds the button low (5); the release is seen at 6 and the
    session starts at 1000200 (7); the next round reads 1050200, for
    which [elapsedTime] gives 50 (8), and finds the button low (9). *)
Definition session_world : @World unix_clock :=
  @mkWorld unix_clock (fun n => match n with
                    | 7%nat => 1000200
                    | 8%nat => 1050200
                    | _ => 1000000
                    end)
          (fun n _ => match n with
                      | 5%nat | 9%nat => LOW
                      | _ => HIGH
                      end).

(** The first scan comes 8200000 - 1000000 seconds after [setup()], so
    that [elapsedTime] gives the left bonsai's [maxDryTime], 7200. *)
Definition dry_world : @World unix_clock :=
  @mkWorld unix_clock (fun n => match n with
                    | 0%nat | 1%nat | 2%nat | 3%nat => 1000000
                    | _ => 8200000
                    end)
          (fun _ _ => HIGH).

(** The first pass of [loop()] comes four seconds after [setup()]. *)
Definition four_seconds_world : @World unix_clock :=
  @mkWorld unix_clock (fun n => match n with
                    | 0%nat | 1%nat | 2%nat | 3%nat => 1000000
                    | _ => 1000004
                    end)
          (fun _ _ => HIGH).

(** The first pass comes 4000000 seconds after [setup()], the second
    pass (samples 8 and up) one second after the first. *)
Definition long_wait_world : @World unix_clock :=
  @mkWorld unix_clock (fun n => match n with
                    | 0%nat | 1%nat | 2%nat | 3%nat => 1000000
                    | 4%nat | 5%nat | 6%nat | 7%nat => 5000000
                    | _ => 5000001
                    end)
          (fun _ _ => HIGH).

(** After the fault stop of [overrun_state]: every input reads low, so
    the reset button is pressed at once. *)
Definition reset_world : @World unix_clock :=
  @mkWorld unix_clock (fun _ => 2300000) (fun _ _ => LOW).

(** In the shipped configuration the button of the left bonsai is held
    low from the first scan (sample 5) through sample 8 and released at
    sample 9; the clock stands at 1000000 and reads 1000500 from sample
    11 on, half a kilosecond into the session. *)
Definition hold_world : @World unix_clock :=
  @mkWorld unix_clock
          (fun n => if (n <? 11)%nat then 1000000 else 1000500)
          (fun n _ => if ((4 <? n)%nat && (n <? 9)%nat)%bool then LOW else HIGH).

(** The session of [session_world], with the button still low when the
    plant is scanned again after the early stop (sample 13). *)
Definition held_stop_world : @World unix_clock :=
  @mkWorld unix_clock
          (fun n => match n with
                    | 7%nat => 1000200
                    | 8%nat => 1050200
                    | _ => 1000000
                    end)
          (fun n _ => match n with
                      | 5%nat | 9%nat | 13%nat => LOW
                      | _ => HIGH
                      end).

(** A session on the left bonsai in the shipped configuration that
    nobody stops: the button is low at the first scan (sample 5) only,
    the session starts at 1000000 (sample 7), and from sample 8 on the
    clock reads 1000300, 300 seconds into the session. *)
Definition ceiling_world : @World unix_clock :=
  @mkWorld unix_clock
          (fun n => if (n <? 8)%nat then 1000000 else 1000300)
          (fun n _ => match n with
                      | 5%nat => LOW
                      | _ => HIGH
                      end).

(** The session of [overrun_state], 300 seconds after its start. *)
Definition fern_ceiling_world : @World unix_clock :=
  @mkWorld unix_clock (fun _ => 2000300) (fun _ _ => HIGH).

(** The overrun of [overrun_world], with the reset button read low at
    the first round of the error wait (sample 2). *)
Definition fault_reset_world : @World unix_clock :=
  @mkWorld unix_clock
          (fun _ => 2300000)
          (fun n _ => match n with
                      | 2%nat => LOW
                      | _ => HIGH
                      end).

(** A state whose display cursor is inside the array. *)
Definition cursor_inside_state : @State unix_clock :=
  set_lcdCounter 2 (boot long_wait_world).

Section Proofs.
Context {clk : Clock}.
Variable w : World.

(** Unfolding of the monad and of the record updates, and the case
    split on the next test the code makes. *)
Ltac exec :=
  cbv beta iota zeta delta
    [rtc_getTime digitalRead digitalWrite lcd_show goto bind ret gets
     modify for_plants for_from fst snd negb
     set_plants set_error set_watering set_plantCounter set_currentPlant
     set_lcdCounter set_lcdLastChange set_waterStartTime set_currentTime
     set_wateringTime set_pins set_screen set_reads set_pc
     plants error watering plantCounter currentPlant lcdCounter
     lcdLastChange waterStartTime currentTime wateringTime pins screen
     reads pc].
Ltac split_test :=
  match goal with
  | |- context [match ?x with _ => _ end] =>
      lazymatch x with
      | match _ with _ => _ end => fail
      | _ =>
          match type of x with
          | bool => destruct x eqn:?
          | option _ => destruct x eqn:?
          end
      end
  end.
Ltac run := exec; repeat (split_test; exec).

(** *** The segments of [loop()] in closed form *)

Lemma handle_lcd_eq (s : State) :
  snd (handle_lcd w s) =
  mkState (plants s) (error s) (watering s) (plantCounter s) (currentPlant s)
          (lcd_next s) (lcdLastChange s) (waterStartTime s)
          (clock_at w (S (reads s))) (wateringTime s) (pins s)
          (PlantReport (read_plant (plants s) (lcd_next s)))
          (S (S (reads s))) IDLE.
Proof.
  destruct s. unfold lcd_next, handle_lcd, lcdPrint. run; reflexivity.
Qed.

Lemma pumps_off_eq (s : State) :
  snd (pumps_off s) =
  set_pins (pump_off (plants s) 2 (pump_off (plants s) 1 (pump_off (plants s) 0 (pins s)))) s.
Proof.
  destruct s. unfold pumps_off, pump_off.
  unfold for_plants. change (Z.to_nat numPlants) with 3%nat. cbn [for_from].
  change (0 + 1 + 1) with 2. change (0 + 1) with 1.
  run; reflexivity.
Qed.

Lemma handle_error_eq (s : State) :
  snd (handle_error w s) =
  if error s then error_entry s else snd (handle_lcd w s).
Proof.
  unfold handle_error, bind at 1, gets at 1. cbn [fst snd].
  destruct (error s); [|reflexivity].
  unfold bind at 1. unfold digitalWrite at 1, modify at 1.
  unfold bind at 1.
  pose proof (pumps_off_eq (set_pins (<[uint8 errorLED:=HIGH]> (pins s)) s)) as E.
  destruct (pumps_off _) as [u s1]. cbn [snd] in E. subst s1.
  destruct s; reflexivity.
Qed.

Lemma finish_watering_eq (s : State) :
  snd (finish_watering w s) = snd (handle_error w (finished s)).
Proof. destruct s; reflexivity. Qed.

Lemma error_wait_eq (s : State) :
  snd (error_wait w s) =
  if level_at w (reads s) (uint8 errorResetButton) then
    set_pc ERROR (set_reads (S (reads s)) s)
  else
    snd (handle_lcd w (set_screen Cleared (set_error false (set_reads (S (reads s)) s)))).
Proof.
  destruct s. unfold error_wait. exec.
  destruct (level_at w _ _); reflexivity.
Qed.

Lemma watering_round_eq (s : State) :
  snd (watering_round w s) =
  let wt := elapsedTime (clock_at w (reads s)) (waterStartTime s) in
  let cp := currentPlant s in
  if waterTime cp <=? wt then
    snd (finish_watering w (set_watering false (sampled w s)))
  else
    let s2 := set_reads (S (S (reads s))) (sampled w s) in
    if level_at w (S (reads s)) (uint8 (buttonPin cp)) then
      if ERR_WATER_TIME <=? wt then
        snd (finish_watering w (set_watering false (set_error true s2)))
      else set_pc WATERING (set_screen (WateringBanner (name cp) (Some wt)) s2)
    else snd (finish_watering w (set_watering false s2)).
Proof.
  destruct s. unfold watering_round, sampled. run; reflexivity.
Qed.

Lemma after_button_eq (s : State) :
  snd (after_button w s) =
  if watering s then pumping w s
  else snd (handle_error w (set_plantCounter (advanced (plantCounter s)) s)).
Proof.
  destruct s. unfold after_button, pumping, advanced. run; reflexivity.
Qed.

Lemma release_wait_eq (s : State) :
  snd (release_wait w s) =
  if level_at w (reads s) (uint8 (buttonPin (currentPlant s))) then
    snd (after_button w (set_screen Cleared (set_watering true (set_reads (S (reads s)) s))))
  else set_pc CONFIRMING (set_reads (S (reads s)) s).
Proof.
  destruct s. unfold release_wait. exec.
  destruct (level_at w _ _); reflexivity.
Qed.

Lemma scan_eq (s : State) :
  snd (scan w s) =
  if level_at w (S (reads s)) (uint8 (buttonPin (scanned_plant s))) then
    snd (after_button w (scanned w s))
  else set_pc CONFIRMING (set_screen ReleasePrompt (scanned w s)).
Proof.
  destruct s. unfold scan, scanned, is_due, scanned_plant. exec.
  destruct (read_plant _ _); exec; destruct (level_at w _ _); reflexivity.
Qed.

Lemma step_eq (s : State) :
  step w s =
  match pc s with
  | IDLE => snd (scan w s)
  | CONFIRMING => snd (release_wait w s)
  | WATERING => snd (watering_round w s)
  | ERROR => snd (error_wait w s)
  end.
Proof. unfold step. destruct (pc s); reflexivity. Qed.

(** *** What a step leaves alone *)

Lemma handle_lcd_frame (s : State) :
  let s' := snd (handle_lcd w s) in
  plants s' = plants s /\ error s' = error s /\ watering s' = watering s /\
  plantCounter s' = plantCounter s /\ currentPlant s' = currentPlant s /\
  lcdLastChange s' = lcdLastChange s /\ pins s' = pins s /\ pc s' = IDLE.
Proof. cbv zeta. rewrite handle_lcd_eq. cbn. tauto. Qed.

Lemma pump_off_lookup (ps : list Plant) (i k : Z) (pn : gmap Z bool) :
  pump_off ps i pn !! k = Some HIGH -> pn !! k = Some HIGH.
Proof.
  unfold pump_off. destruct (read_plant ps i) as [p|]; [|done].
  destruct (decide (uint8 (pumpPin p) = k)) as [->|Hne].
  - rewrite lookup_insert_eq. discriminate.
  - by rewrite lookup_insert_ne.
Qed.

Lemma handle_error_frame (s : State) :
  let s' := snd (handle_error w s) in
  plants s' = plants s /\ error s' = error s /\ watering s' = watering s /\
  plantCounter s' = plantCounter s /\ currentPlant s' = currentPlant s /\
  lcdLastChange s' = lcdLastChange s /\
  pc s' = (if error s then ERROR else IDLE).
Proof.
  cbv zeta. rewrite handle_error_eq. destruct (error s) eqn:E.
  - cbn. rewrite E. tauto.
  - destruct (handle_lcd_frame s) as (?&?&?&?&?&?&?&?). rewrite E in *. tauto.
Qed.

Lemma step_plants (s : State) : plants (step w s) = plants s.
Proof.
  rewrite step_eq.
  destruct (pc s);
    rewrite ?scan_eq, ?release_wait_eq, ?watering_round_eq, ?error_wait_eq;
    cbv zeta;
    repeat (match goal with |- context [if ?b then _ else _] => destruct b eqn:? end);
    rewrite ?after_button_eq;
    repeat (match goal with |- context [if ?b then _ else _] => destruct b eqn:? end);
    rewrite ?finish_watering_eq;
    try match goal with
        | |- plants (snd (handle_error w ?x)) = _ =>
            destruct (handle_error_frame x) as [-> _]
        | |- plants (snd (handle_lcd w ?x)) = _ =>
            destruct (handle_lcd_frame x) as [-> _]
        end;
    reflexivity.
Qed.

Lemma step_lcdLastChange (s : State) : lcdLastChange (step w s) = lcdLastChange s.
Proof.
  rewrite step_eq.
  destruct (pc s);
    rewrite ?scan_eq, ?release_wait_eq, ?watering_round_eq, ?error_wait_eq;
    cbv zeta;
    repeat (match goal with |- context [if ?b then _ else _] => destruct b eqn:? end);
    rewrite ?after_button_eq;
    repeat (match goal with |- context [if ?b then _ else _] => destruct b eqn:? end);
    rewrite ?finish_watering_eq;
    try match goal with
        | |- lcdLastChange (snd (handle_error w ?x)) = _ =>
            destruct (handle_error_frame x) as (_&_&_&_&_&->&_)
        | |- lcdLastChange (snd (handle_lcd w ?x)) = _ =>
            destruct (handle_lcd_frame x) as (_&_&_&_&_&->&_)
        end;
    reflexivity.
Qed.

(** *** [elapsedTime] *)

Lemma int32_id (z : Z) : in_long z -> int32 z = z.
Proof.
  unfold in_long, int32. intros Hz.
  rewrite Z.mod_small by lia. lia.
Qed.

(** C7, as the code has it.  For times whose unix seconds are
    non-negative [long] values, [elapsedTime a b] is a function of the
    difference of the two unix times alone, monotone in it, and signed,
    not clamped at zero: it is non-negative when [b] is not after [a]
    and positive once [a] is 1000 seconds or more after [b]; it is
    non-positive when [a] is not after [b] and negative once [a] is
    1000 seconds or more before [b]; and exchanging the arguments
    negates it. *)
Theorem elapsedTime_signed (a b : Time) :
  0 <= getUnixTime a <= 2147483647 ->
  0 <= getUnixTime b <= 2147483647 ->
  (getUnixTime b <= getUnixTime a -> 0 <= elapsedTime a b) /\
  (getUnixTime b + 1000 <= getUnixTime a -> 0 < elapsedTime a b) /\
  (getUnixTime a <= getUnixTime b -> elapsedTime a b <= 0) /\
  (getUnixTime a + 1000 <= getUnixTime b -> elapsedTime a b < 0) /\
  elapsedTime a b = - elapsedTime b a /\
  (forall a' b' : Time,
     0 <= getUnixTime a' <= 2147483647 ->
     0 <= getUnixTime b' <= 2147483647 ->
     (getUnixTime a' - getUnixTime b' = getUnixTime a - getUnixTime b ->
      elapsedTime a' b' = elapsedTime a b) /\
     (getUnixTime a - getUnixTime b <= getUnixTime a' - getUnixTime b' ->
      elapsedTime a b <= elapsedTime a' b')).
Proof.
  intros Ha Hb. unfold elapsedTime.
  rewrite !int32_id by (unfold in_long; lia).
  refine (conj _ (conj _ (conj _ (conj _ (conj _ _))))).
  - intros Hle. apply Z.quot_pos; lia.
  - intros Hle.
    assert (1000 `quot` 1000 <= (getUnixTime a - getUnixTime b) `quot` 1000)
      as H1 by (apply Z.quot_le_mono; lia).
    change (1000 `quot` 1000) with 1 in H1. lia.
  - intros Hle.
    assert ((getUnixTime a - getUnixTime b) `quot` 1000 <= 0 `quot` 1000)
      as H0 by (apply Z.quot_le_mono; lia).
    exact H0.
  - intros Hle.
    assert ((getUnixTime a - getUnixTime b) `quot` 1000 <= (-1000) `quot` 1000)
      as H1 by (apply Z.quot_le_mono; lia).
    change ((-1000) `quot` 1000) with (-1) in H1. lia.
  - replace (getUnixTime a - getUnixTime b) with (- (getUnixTime b - getUnixTime a)) by lia.
    apply Z.quot_opp_l. lia.
  - intros a' b' Ha' Hb'.
    rewrite !int32_id by (unfold in_long; lia).
    split.
    + intros ->. reflexivity.
    + intros Hle. apply Z.quot_le_mono; lia.
Qed.

(** *** The error interlock *)

Lemma error_wait_held (s : State) :
  pc s = ERROR ->
  level_at w (reads s) (uint8 errorResetButton) = HIGH ->
  step w s = set_reads (S (reads s)) s.
Proof.
  intros Hpc Hl. rewrite step_eq, Hpc, error_wait_eq, Hl.
  destruct s; cbn in *. by subst.
Qed.

Lemma error_wait_steps (n : nat) (s : State) :
  pc s = ERROR ->
  (forall k, (k < n)%nat -> level_at w (reads s + k) (uint8 errorResetButton) = HIGH) ->
  steps w n s = set_reads (reads s + n) s.
Proof.
  revert s. induction n as [|n IH]; intros s Hpc Hl.
  - destruct s; unfold set_reads; cbn. by rewrite Nat.add_0_r.
  - cbn [steps]. rewrite error_wait_held; [|done|].
    + rewrite IH; [| done |].
      * destruct s; unfold set_reads; cbn. f_equal; lia.
      * intros k Hk. cbn [reads set_reads].
        replace (S (reads s) + k)%nat with (reads s + S k)%nat by lia.
        apply Hl. lia.
    + specialize (Hl 0%nat). rewrite Nat.add_0_r in Hl. apply Hl. lia.
Qed.

(** C5.  In the error wait a step in which the reset button does not
    read low changes nothing but the count of samples taken, so the
    controller stays in ERROR, whatever the clock and the other pins do
    and however many rounds pass; the step that leaves ERROR is the one
    that reads the reset button low, and it clears the error flag. *)
Theorem error_latched (s : State) :
  pc s = ERROR ->
  (forall n,
     (forall k, (k < n)%nat ->
        level_at w (reads s + k) (uint8 errorResetButton) = HIGH) ->
     steps w n s = set_reads (reads s + n) s /\
     pc (steps w n s) = ERROR /\ error (steps w n s) = error s) /\
  (pc (step w s) <> ERROR <->
   level_at w (reads s) (uint8 errorResetButton) = LOW) /\
  (level_at w (reads s) (uint8 errorResetButton) = LOW ->
   pc (step w s) = IDLE /\ error (step w s) = false).
Proof.
  intros Hpc. split; [|split].
  - intros n Hl. rewrite error_wait_steps by done. cbn. auto.
  - destruct (level_at w (reads s) (uint8 errorResetButton)) eqn:Hl.
    + rewrite error_wait_held by done. cbn. rewrite Hpc.
      split; [congruence | discriminate].
    + rewrite step_eq, Hpc, error_wait_eq, Hl.
      match goal with |- context [handle_lcd w ?x] =>
        destruct (handle_lcd_frame x) as (_&_&_&_&_&_&_&->) end.
      split; [done | discriminate].
  - intros Hl. rewrite step_eq, Hpc, error_wait_eq, Hl.
    match goal with |- context [handle_lcd w ?x] =>
      destruct (handle_lcd_frame x) as (_&He&_&_&_&_&_&Hp) end.
    unfold LOW. by rewrite He, Hp.
Qed.

(** *** The scan reloads the working record *)

Lemma step_currentPlant_idle (s : State) :
  pc s = IDLE ->
  currentPlant (step w s) = with_needsWater (is_due w s) (scanned_plant s).
Proof.
  intros Hpc. rewrite step_eq, Hpc, scan_eq.
  destruct (level_at w _ _); [|reflexivity].
  rewrite after_button_eq.
  destruct (watering (scanned w s)); [reflexivity|].
  match goal with |- currentPlant (snd (handle_error w ?x)) = _ =>
    destruct (handle_error_frame x) as (_&_&_&_&->&_) end.
  reflexivity.
Qed.

Lemma scan_reloads (s : State) (p : Plant) :
  pc s = IDLE ->
  read_plant (plants s) (plantCounter s) = Some p ->
  lastWatered (currentPlant (step w s)) = lastWatered p /\
  lastWateredFor (currentPlant (step w s)) = lastWateredFor p.
Proof.
  intros Hpc Hp. rewrite step_currentPlant_idle by done.
  unfold scanned_plant. rewrite Hp. split; reflexivity.
Qed.

(** *** The fault stop *)

Lemma fault_stop_eq (s : State) :
  pc s = WATERING ->
  elapsedTime (clock_at w (reads s)) (waterStartTime s) < waterTime (currentPlant s) ->
  level_at w (S (reads s)) (uint8 (buttonPin (currentPlant s))) = HIGH ->
  ERR_WATER_TIME <= elapsedTime (clock_at w (reads s)) (waterStartTime s) ->
  step w s =
  error_entry (finished (set_watering false (set_error true
                 (set_reads (S (S (reads s))) (sampled w s))))).
Proof.
  intros Hpc Hlt Hb Herr.
  rewrite step_eq, Hpc, watering_round_eq. cbv zeta.
  rewrite (proj2 (Z.leb_gt _ _) Hlt), Hb, (proj2 (Z.leb_le _ _) Herr).
  rewrite finish_watering_eq, handle_error_eq. reflexivity.
Qed.

Lemma pumps_off_all (ps : list Plant) (pn : gmap Z bool) (p : Plant) :
  length ps = Z.to_nat numPlants ->
  p ∈ ps ->
  pin_level (pump_off ps 2 (pump_off ps 1 (pump_off ps 0 pn))) (pumpPin p) = LOW.
Proof.
  intros Hlen Hin.
  destruct ps as [|p0 [|p1 [|p2 [|]]]]; try discriminate Hlen.
  unfold pump_off, pin_level.
  change (read_plant [p0; p1; p2] 0) with (Some p0).
  change (read_plant [p0; p1; p2] 1) with (Some p1).
  change (read_plant [p0; p1; p2] 2) with (Some p2).
  rewrite !elem_of_cons, elem_of_nil in Hin.
  destruct Hin as [->|[->|[->|[]]]];
    repeat (rewrite lookup_insert; case_decide; [reflexivity|]); congruence.
Qed.

(** X20.  The test of line 185, in the units of the code: in a
    watering round in which the value of [elapsedTime] (thousands of
    seconds, see X1) is at or above [ERR_WATER_TIME] while neither stop
    test of line 179 holds (the value is below the plant's [waterTime]
    and the button does not read low), the controller goes to ERROR
    with the error flag set and the session flag cleared; and there,
    for as many rounds as the reset button is not read low, every pump
    pin of the registry reads low. *)
Theorem overrun_enters_error (s : State) (n : nat) :
  pc s = WATERING ->
  length (plants s) = Z.to_nat numPlants ->
  elapsedTime (clock_at w (reads s)) (waterStartTime s) < waterTime (currentPlant s) ->
  level_at w (S (reads s)) (uint8 (buttonPin (currentPlant s))) = HIGH ->
  ERR_WATER_TIME <= elapsedTime (clock_at w (reads s)) (waterStartTime s) ->
  (forall k, (k < n)%nat ->
     level_at w (S (S (reads s)) + k) (uint8 errorResetButton) = HIGH) ->
  let s' := steps w (S n) s in
  pc s' = ERROR /\ error s' = true /\ watering s' = false /\
  forall p, p ∈ plants s' -> pin_level (pins s') (pumpPin p) = LOW.
Proof.
  intros Hpc Hlen Hlt Hb Herr Hreset s'. subst s'. cbn [steps].
  rewrite fault_stop_eq by done.
  rewrite error_wait_steps; [| reflexivity | exact Hreset].
  cbn. repeat split.
  intros p Hin. by apply pumps_off_all.
Qed.

(** *** The round-robin scanner *)

Lemma advanced_mod (c : Z) :
  0 <= c < numPlants -> advanced c = (c + 1) `mod` numPlants.
Proof.
  unfold advanced, numPlants, int16. intros Hc.
  rewrite (Z.mod_small (c + 1 + 32768)) by lia.
  replace (c + 1 + 32768 - 32768) with (c + 1) by lia.
  destruct (3 <=? c + 1) eqn:E.
  - apply Z.leb_le in E. assert (c = 2) as -> by lia. reflexivity.
  - apply Z.leb_gt in E. by rewrite Z.mod_small by lia.
Qed.

Lemma idle_pass (s : State) :
  pc s = IDLE -> watering s = false ->
  level_at w (S (reads s)) (uint8 (buttonPin (scanned_plant s))) = HIGH ->
  step w s =
  snd (handle_error w (set_plantCounter (advanced (plantCounter s)) (scanned w s))).
Proof.
  intros Hpc Hw Hb.
  rewrite step_eq, Hpc, scan_eq, Hb, after_button_eq.
  cbn [scanned watering set_reads set_pins set_currentPlant set_currentTime].
  rewrite Hw. reflexivity.
Qed.

Lemma idle_passes (n : nat) (s : State) :
  pc s = IDLE -> watering s = false -> error s = false ->
  0 <= plantCounter s < numPlants ->
  (forall t pin, level_at w t pin = HIGH) ->
  pc (steps w n s) = IDLE /\
  plantCounter (steps w n s) = (plantCounter s + Z.of_nat n) `mod` numPlants.
Proof.
  revert s. induction n as [|n IH]; intros s Hpc Hw He Hc Hall.
  - cbn [steps]. split; [done|]. rewrite Z.add_0_r, Z.mod_small; done.
  - cbn [steps].
    pose proof (idle_pass s Hpc Hw (Hall _ _)) as Hs.
    match type of Hs with _ = snd (handle_error w ?x) =>
      destruct (handle_error_frame x) as (_&He'&Hw'&Hc'&_&_&Hpc') end.
    rewrite <- Hs in *.
    cbn [error watering plantCounter set_plantCounter scanned set_reads
         set_pins set_currentPlant set_currentTime] in He', Hw', Hc', Hpc'.
    rewrite He in *.
    destruct (IH (step w s)) as [IH1 IH2]; try done.
    + congruence.
    + rewrite Hc', advanced_mod by done.
      apply Z.mod_pos_bound. reflexivity.
    + split; [done|].
      rewrite IH2, Hc', advanced_mod by done.
      rewrite Zplus_mod_idemp_l. f_equal. lia.
Qed.

(** C9.  A pass of [loop()] that starts with no session active and in
    which the button of the plant under the cursor does not read low
    moves the cursor from [c] to [(c + 1) mod numPlants]; and while no
    input reads low and no error is flagged, every step is such a pass,
    so after [n] of them the cursor is at [(c + n) mod numPlants]. *)
Theorem scanner_round_robin (s : State) :
  pc s = IDLE -> watering s = false ->
  0 <= plantCounter s < numPlants ->
  (level_at w (S (reads s)) (uint8 (buttonPin (scanned_plant s))) = HIGH ->
   plantCounter (step w s) = (plantCounter s + 1) `mod` numPlants) /\
  (error s = false -> (forall t pin, level_at w t pin = HIGH) ->
   forall n, pc (steps w n s) = IDLE /\
             plantCounter (steps w n s) = (plantCounter s + Z.of_nat n) `mod` numPlants).
Proof.
  intros Hpc Hw Hc. split.
  - intros Hb. rewrite idle_pass by done.
    match goal with |- plantCounter (snd (handle_error w ?x)) = _ =>
      destruct (handle_error_frame x) as (_&_&_&->&_) end.
    cbn. by apply advanced_mod.
  - intros He Hall n. by apply idle_passes.
Qed.

(** *** One session at a time *)

Lemma boot_eq :
  boot w =
  mkState [with_lastWatered (clock_at w 1) gBonsai;
           with_lastWatered (clock_at w 2) bBonsai;
           with_lastWatered (clock_at w 3) succulent]
          false false 0 (mkPlant "" 0 0 0 0 0 Time_ctor 0 false) numPlants
          (clock_at w 0) Time_ctor Time_ctor 0 (<[8 := LOW]> ∅) Cleared 4 IDLE.
Proof. reflexivity. Qed.

Lemma inv_boot : inv (boot w).
Proof.
  rewrite boot_eq. unfold inv. cbn.
  split; [by eexists _, _, _|]. split; [done|]. split; [done|].
  split; [done|]. unfold pumps_low.
  rewrite !lookup_insert_ne, !lookup_empty by done. done.
Qed.

Lemma scanned_plant_registry (s : State) :
  registry_ok (plants s) -> 0 <= plantCounter s < numPlants ->
  (lightPin (scanned_plant s) = 4 \/ lightPin (scanned_plant s) = 3 \/
   lightPin (scanned_plant s) = 2) /\
  from_registry (scanned_plant s).
Proof.
  intros (t0 & t1 & t2 & E) Hc. unfold scanned_plant, from_registry. rewrite E.
  assert (plantCounter s = 0 \/ plantCounter s = 1 \/ plantCounter s = 2)
    as [-> | [-> | ->]] by (unfold numPlants in Hc; lia);
    vm_compute; intuition congruence.
Qed.

Lemma pumps_low_insert (k : Z) (v : bool) (pn : gmap Z bool) :
  k <> 6 -> k <> 7 -> k <> 255 ->
  pumps_low pn -> pumps_low (<[k := v]> pn).
Proof.
  unfold pumps_low. intros H6 H7 H255 (?&?&?).
  by rewrite !lookup_insert_ne.
Qed.

Lemma others_low_on (cp : Plant) (pn : gmap Z bool) :
  pumps_low pn -> others_low cp (<[uint8 (pumpPin cp) := HIGH]> pn).
Proof.
  intros (H6 & H7 & H255) k Hk Hne.
  rewrite lookup_insert_ne by done.
  destruct Hk as [-> | [-> | ->]]; done.
Qed.

Lemma pumps_low_off (cp : Plant) (pn : gmap Z bool) :
  others_low cp pn -> pumps_low (<[uint8 (pumpPin cp) := LOW]> pn).
Proof.
  intros Ho. unfold pumps_low.
  repeat split; rewrite lookup_insert; case_decide; try discriminate;
    apply Ho; auto.
Qed.

Lemma inv_step (s : State) : inv s -> inv (step w s).
Proof.
  intros (Hreg & Hc & He & Hpc).
  unfold inv. rewrite step_plants. split; [done|].
  rewrite step_eq. destruct (pc s).
  - (* the scan *)
    destruct Hpc as [Hw Hlow].
    destruct (scanned_plant_registry s Hreg Hc) as [Hlight Hfrom].
    assert (pumps_low (pins (scanned w s))) as Hlow'.
    { cbn. apply pumps_low_insert; try done;
        destruct Hlight as [-> | [-> | ->]]; done. }
    rewrite scan_eq. destruct (level_at w _ _).
    + rewrite after_button_eq.
      cbn [scanned watering set_reads set_pins set_currentPlant set_currentTime].
      rewrite Hw.
      rewrite handle_error_eq.
      cbn [scanned error set_plantCounter set_reads set_pins set_currentPlant
           set_currentTime].
      rewrite He, handle_lcd_eq. cbn.
      rewrite advanced_mod by done.
      split; [by apply Z.mod_pos_bound|]. done.
    + cbn. done.
  - (* the wait for the release *)
    destruct Hpc as (Hw & Hlow & Hfrom).
    rewrite release_wait_eq. destruct (level_at w _ _).
    + rewrite after_button_eq. cbn.
      split; [done|]. split; [done|]. split; [done|]. split; [done|].
      by apply others_low_on.
    + cbn. done.
  - (* a watering round *)
    destruct Hpc as (Hw & Hfrom & Ho).
    assert (forall x, plantCounter x = plantCounter s -> error x = false ->
              pins x = pins s -> currentPlant x = currentPlant s ->
              0 <= plantCounter (snd (finish_watering w (set_watering false x))) < numPlants /\
              error (snd (finish_watering w (set_watering false x))) = false /\
              match pc (snd (finish_watering w (set_watering false x))) with
              | IDLE => watering (snd (finish_watering w (set_watering false x))) = false /\
                        pumps_low (pins (snd (finish_watering w (set_watering false x))))
              | _ => False
              end) as Hfin.
    { intros x Hx Hex Hpx Hcx.
      rewrite finish_watering_eq, handle_error_eq.
      cbn [finished error set_currentPlant set_screen set_pins set_watering].
      rewrite Hex, handle_lcd_eq. cbn. rewrite Hx, Hpx, Hcx.
      split; [done|]. split; [done|]. split; [done|].
      by apply pumps_low_off. }
    rewrite watering_round_eq. cbv zeta.
    destruct (waterTime (currentPlant s) <=? _) eqn:Hwt.
    + destruct (Hfin (sampled w s)) as (?&?&?); try done.
      destruct (pc _); tauto.
    + destruct (level_at w _ _).
      * destruct (ERR_WATER_TIME <=? _) eqn:Herr.
        { apply Z.leb_gt in Hwt. apply Z.leb_le in Herr.
          destruct Hfrom as [_ Hle]. unfold ERR_WATER_TIME in Herr. lia. }
        cbn. done.
      * destruct (Hfin (set_reads (S (S (reads s))) (sampled w s))) as (?&?&?);
          try done.
        destruct (pc _); tauto.
  - done.
Qed.

Lemma reachable_inv (s : State) : reachable w s -> inv s.
Proof. induction 1; [apply inv_boot | by apply inv_step]. Qed.

Lemma pin_level_low (pn : gmap Z bool) (k : Z) :
  pn !! uint8 k <> Some HIGH -> pin_level pn k = LOW.
Proof. unfold pin_level. by destruct (pn !! uint8 k) as [[]|]. Qed.

Lemma registry_pumps (s : State) :
  registry_ok (plants s) ->
  pin_level (pins s) 6 = LOW -> pin_level (pins s) 7 = LOW ->
  pin_level (pins s) (-1) = LOW ->
  pumps_on s = [].
Proof.
  intros (t0 & t1 & t2 & E) H6 H7 H255. unfold pumps_on. rewrite E. cbn.
  by rewrite H6, H7, H255.
Qed.

(** C2.  In every state the sketch reaches from [boot], whatever the
    inputs, at most one pump pin of the registry reads high; a pump pin
    reads high only at the watering loop, where it is the pin of the
    one plant the session is about; and the session flag is set exactly
    there. *)
Theorem one_session_at_a_time (s : State) :
  reachable w s ->
  (length (pumps_on s) <= 1)%nat /\
  (watering s = true <-> pc s = WATERING) /\
  forall p, p ∈ pumps_on s ->
    pc s = WATERING /\ pumpPin p = pumpPin (currentPlant s).
Proof.
  intros Hr. destruct (reachable_inv s Hr) as (Hreg & Hc & He & Hpc).
  destruct (pc s) eqn:Epc.
  - destruct Hpc as (Hw & H6 & H7 & H255).
    rewrite registry_pumps by (try done; by apply pin_level_low).
    rewrite Hw. cbn. split; [lia|]. split; [split; discriminate|].
    intros p Hp. by apply elem_of_nil in Hp.
  - destruct Hpc as (Hw & (H6 & H7 & H255) & _).
    rewrite registry_pumps by (try done; by apply pin_level_low).
    rewrite Hw. cbn. split; [lia|]. split; [split; discriminate|].
    intros p Hp. by apply elem_of_nil in Hp.
  - destruct Hpc as (Hw & [Hpin _] & Ho).
    split; [|split; [by rewrite Hw|]].
    + destruct Hreg as (t0 & t1 & t2 & E). unfold pumps_on. rewrite E. cbn.
      destruct Hpin as [Hp | [Hp | Hp]];
        [ rewrite (pin_level_low _ 7), (pin_level_low _ (-1))
        | rewrite (pin_level_low _ 6), (pin_level_low _ (-1))
        | rewrite (pin_level_low _ 6), (pin_level_low _ 7) ];
        try (apply Ho; [tauto | rewrite Hp; done]);
        destruct (pin_level _ _); cbn; lia.
    + intros p Hp. split; [done|].
      destruct Hreg as (t0 & t1 & t2 & E). unfold pumps_on in Hp. rewrite E in Hp.
      apply list_elem_of_In, filter_In in Hp. destruct Hp as [Hin Hhigh].
      destruct (decide (uint8 (pumpPin p) = uint8 (pumpPin (currentPlant s)))) as [Heq | Hne].
      * cbn in Hin.
        destruct Hin as [<- | [<- | [<- | []]]];
          destruct Hpin as [Hp | [Hp | Hp]]; rewrite Hp in *; cbn in *; done.
      * exfalso. unfold pin_level in Hhigh.
        assert (pins s !! uint8 (pumpPin p) <> Some HIGH) as Hl.
        { apply Ho; [|done]. cbn in Hin.
          destruct Hin as [<- | [<- | [<- | []]]]; cbn; tauto. }
        by destruct (pins s !! uint8 (pumpPin p)) as [[]|].
  - done.
Qed.

Lemma plantCounter_in_range (s : State) :
  reachable w s -> 0 <= plantCounter s < numPlants.
Proof. intros Hr. by destruct (reachable_inv s Hr) as (_ & Hc & _). Qed.

(** With the shipped durations (at most 180) the test of line 179 stops
    every session before the test of line 185 can hold. *)
Lemma error_unreachable (s : State) :
  reachable w s -> error s = false /\ pc s <> ERROR.
Proof.
  intros Hr. destruct (reachable_inv s Hr) as (_ & _ & He & Hpc).
  split; [done|]. intros E. by rewrite E in Hpc.
Qed.

(** No step writes the registry, so its [needsWater] fields stay as
    lines 30-32 set them. *)
Lemma registry_never_due (s : State) (p : Plant) :
  reachable w s -> p ∈ plants s ->
  needsWater p = false /\ lastWateredFor p = 0.
Proof.
  intros Hr Hp. destruct (reachable_inv s Hr) as ((t0 & t1 & t2 & E) & _).
  rewrite E, !elem_of_cons, elem_of_nil in Hp.
  destruct Hp as [-> | [-> | [-> | []]]]; done.
Qed.

(** *** The display cursor *)

(** C10, at the first pass.  After [setup()], whatever the clock and the
    pins do, the first pass of [loop()] either stops at the wait for the
    button's release, or reaches line 250 with [lcdCounter] at
    [numPlants] or above, so that [plants[lcdCounter]] is a read outside
    the array. *)
Theorem first_display_read_out_of_bounds :
  let s1 := step w (boot w) in
  pc s1 = CONFIRMING \/
  (pc s1 = IDLE /\ numPlants <= lcdCounter s1 /\
   read_plant (plants s1) (lcdCounter s1) = None /\
   screen s1 = PlantReport None).
Proof.
  cbv zeta. rewrite step_eq, boot_eq. cbn [pc]. rewrite scan_eq.
  destruct (level_at w _ _); [right | left; reflexivity].
  rewrite after_button_eq.
  cbn [scanned watering set_reads set_pins set_currentPlant set_currentTime].
  rewrite handle_error_eq.
  cbn [scanned error set_plantCounter set_reads set_pins set_currentPlant
       set_currentTime].
  rewrite handle_lcd_eq. unfold lcd_next. cbn.
  destruct (LCD_CHANGE_TIME <=? _); vm_compute; intuition discriminate.
Qed.

(** ** Further properties of the sketch *)

(** *** [elapsedTime] in thousands of seconds *)

Lemma quot_1000_bounds (d : Z) :
  exists r, d = 1000 * (d `quot` 1000) + r /\
            (0 <= d -> 0 <= r < 1000) /\ (d < 0 -> -1000 < r <= 0).
Proof.
  exists (Z.rem d 1000). split; [apply Z.quot_rem'|]. split; intros Hd.
  - apply Z.rem_bound_pos; lia.
  - pose proof (Z.rem_bound_pos_neg d 1000). lia.
Qed.

Lemma elapsedTime_ge_iff (a b : Time) (k : Z) :
  0 <= getUnixTime a <= 2147483647 ->
  0 <= getUnixTime b <= 2147483647 ->
  1 <= k ->
  (k <= elapsedTime a b <-> 1000 * k <= getUnixTime a - getUnixTime b).
Proof.
  intros Ha Hb Hk. unfold elapsedTime.
  rewrite int32_id by (unfold in_long; lia).
  destruct (quot_1000_bounds (getUnixTime a - getUnixTime b)) as (r & Hqr & Hpos & Hneg).
  lia.
Qed.

(** X1.  [elapsedTime] counts whole thousands of seconds: for two times
    whose unix seconds are non-negative [long] values it is at least
    [k >= 1] exactly when the end time is at least [1000 * k] seconds
    after the start time, and it is 0 whenever the two times are less
    than 1000 seconds apart. *)
Theorem elapsedTime_kiloseconds (a b : Time) (k : Z) :
  0 <= getUnixTime a <= 2147483647 ->
  0 <= getUnixTime b <= 2147483647 ->
  1 <= k ->
  (k <= elapsedTime a b <-> 1000 * k <= getUnixTime a - getUnixTime b) /\
  (-1000 < getUnixTime a - getUnixTime b < 1000 -> elapsedTime a b = 0).
Proof.
  intros Ha Hb Hk. split; [by apply elapsedTime_ge_iff|].
  intros Hd. unfold elapsedTime.
  rewrite int32_id by (unfold in_long; lia).
  destruct (quot_1000_bounds (getUnixTime a - getUnixTime b)) as (r & Hqr & Hpos & Hneg).
  lia.
Qed.

(** *** The life of a session *)

Lemma confirming_held (s : State) :
  pc s = CONFIRMING ->
  level_at w (reads s) (uint8 (buttonPin (currentPlant s))) = LOW ->
  step w s = set_reads (S (reads s)) s.
Proof.
  intros Hpc Hl. rewrite step_eq, Hpc, release_wait_eq, Hl.
  destruct s; cbn in *. by subst.
Qed.

Lemma confirming_steps (n : nat) (s : State) :
  pc s = CONFIRMING ->
  (forall k, (k < n)%nat ->
     level_at w (reads s + k) (uint8 (buttonPin (currentPlant s))) = LOW) ->
  steps w n s = set_reads (reads s + n) s.
Proof.
  revert s. induction n as [|n IH]; intros s Hpc Hl.
  - destruct s; unfold set_reads; cbn. by rewrite Nat.add_0_r.
  - cbn [steps]. rewrite confirming_held; [|done|].
    + rewrite IH; [| done |].
      * destruct s; unfold set_reads; cbn. f_equal; lia.
      * intros k Hk. cbn [reads set_reads currentPlant].
        replace (S (reads s) + k)%nat with (reads s + S k)%nat by lia.
        apply Hl. lia.
    + specialize (Hl 0%nat). rewrite Nat.add_0_r in Hl. apply Hl. lia.
Qed.

(** X2.  A demand button found low at the scan does not start the pump:
    the pass stops at the wait for the release with the cursor where it
    was, having written the plant's light and no other pin; and for as
    many rounds as the button keeps reading low the wait changes nothing
    but the count of samples taken. *)
Theorem press_waits_for_release (s : State) (n : nat) :
  pc s = IDLE ->
  level_at w (S (reads s)) (uint8 (buttonPin (scanned_plant s))) = LOW ->
  (forall k, (k < n)%nat ->
     level_at w (S (S (reads s)) + k) (uint8 (buttonPin (scanned_plant s))) = LOW) ->
  let s1 := step w s in
  pc s1 = CONFIRMING /\
  plantCounter s1 = plantCounter s /\
  watering s1 = watering s /\
  pins s1 = <[uint8 (lightPin (scanned_plant s)) := is_due w s]> (pins s) /\
  steps w n s1 = set_reads (reads s1 + n) s1.
Proof.
  intros Hpc Hl Hhold. cbv zeta.
  assert (step w s = set_pc CONFIRMING (set_screen ReleasePrompt (scanned w s))) as E.
  { by rewrite step_eq, Hpc, scan_eq, Hl. }
  rewrite E. refine (conj _ (conj _ (conj _ (conj _ _)))); try reflexivity.
  apply confirming_steps; [reflexivity|]. exact Hhold.
Qed.

(** X3.  The first round of the wait that reads the button released
    starts the session: the session flag is set, the pump pin of the
    plant is written high, the start time is the next clock sample, the
    elapsed time starts at 0, and the loop is at the watering loop, with
    the cursor and the working record as they were. *)
Theorem release_starts_session (s : State) :
  pc s = CONFIRMING ->
  level_at w (reads s) (uint8 (buttonPin (currentPlant s))) = HIGH ->
  let s' := step w s in
  pc s' = WATERING /\ watering s' = true /\
  pins s' = <[uint8 (pumpPin (currentPlant s)) := HIGH]> (pins s) /\
  pin_level (pins s') (pumpPin (currentPlant s)) = HIGH /\
  waterStartTime s' = clock_at w (S (reads s)) /\
  wateringTime s' = 0 /\
  currentPlant s' = currentPlant s /\ plantCounter s' = plantCounter s.
Proof.
  intros Hpc Hl. cbv zeta.
  rewrite step_eq, Hpc, release_wait_eq, Hl, after_button_eq. cbn.
  refine (conj _ (conj _ (conj _ (conj _ _)))); try reflexivity.
  - unfold pin_level. by rewrite lookup_insert_eq.
  - tauto.
Qed.

(** X4.  A round of the watering loop in which the elapsed time is below
    both the plant's [waterTime] and [ERR_WATER_TIME] and the button
    does not read low leaves every pin as it was (the pump stays on) and
    stays in the watering loop. *)
Theorem session_continues (s : State) :
  pc s = WATERING ->
  elapsedTime (clock_at w (reads s)) (waterStartTime s) < waterTime (currentPlant s) ->
  elapsedTime (clock_at w (reads s)) (waterStartTime s) < ERR_WATER_TIME ->
  level_at w (S (reads s)) (uint8 (buttonPin (currentPlant s))) = HIGH ->
  let s' := step w s in
  pc s' = WATERING /\ pins s' = pins s /\
  watering s' = watering s /\ error s' = error s /\
  wateringTime s' = elapsedTime (clock_at w (reads s)) (waterStartTime s) /\
  waterStartTime s' = waterStartTime s /\
  currentPlant s' = currentPlant s /\ plants s' = plants s.
Proof.
  intros Hpc Hlt Herr Hb. cbv zeta.
  rewrite step_eq, Hpc, watering_round_eq. cbv zeta.
  rewrite (proj2 (Z.leb_gt _ _) Hlt), Hb, (proj2 (Z.leb_gt _ _) Herr).
  cbn. tauto.
Qed.

Lemma normal_stop_eq (s : State) :
  pc s = WATERING -> error s = false ->
  waterTime (currentPlant s) <= elapsedTime (clock_at w (reads s)) (waterStartTime s) \/
  level_at w (S (reads s)) (uint8 (buttonPin (currentPlant s))) = LOW ->
  exists x,
    step w s = snd (handle_lcd w (finished (set_watering false x))) /\
    plantCounter x = plantCounter s /\ currentPlant x = currentPlant s /\
    pins x = pins s /\ plants x = plants s /\ error x = false /\
    waterStartTime x = waterStartTime s /\
    wateringTime x = elapsedTime (clock_at w (reads s)) (waterStartTime s).
Proof.
  intros Hpc He Hstop.
  rewrite step_eq, Hpc, watering_round_eq. cbv zeta.
  destruct (waterTime (currentPlant s) <=? _) eqn:Hwt.
  - exists (sampled w s).
    rewrite finish_watering_eq, handle_error_eq.
    cbn [finished error set_currentPlant set_screen set_pins set_watering
         sampled set_wateringTime set_currentTime set_reads].
    rewrite He. cbn. tauto.
  - destruct Hstop as [Hge | Hl]; [apply Z.leb_gt in Hwt; lia|].
    rewrite Hl. unfold LOW. cbv iota.
    exists (set_reads (S (S (reads s))) (sampled w s)).
    rewrite finish_watering_eq, handle_error_eq.
    cbn [finished error set_currentPlant set_screen set_pins set_watering
         sampled set_wateringTime set_currentTime set_reads].
    rewrite He. cbn. tauto.
Qed.

(** X5.  A round of the watering loop in which the elapsed time has
    reached the plant's [waterTime], or else the button reads low, ends
    the session, also when the elapsed time is at or above
    [ERR_WATER_TIME]: the pump pin is written low and no other pin is
    touched, the session flag is cleared, no error is flagged, and the
    pass ends at the top of [loop()] with the cursor on the same plant. *)
Theorem normal_stop (s : State) :
  pc s = WATERING -> error s = false ->
  waterTime (currentPlant s) <= elapsedTime (clock_at w (reads s)) (waterStartTime s) \/
  level_at w (S (reads s)) (uint8 (buttonPin (currentPlant s))) = LOW ->
  let s' := step w s in
  pc s' = IDLE /\ watering s' = false /\ error s' = false /\
  pins s' = <[uint8 (pumpPin (currentPlant s)) := LOW]> (pins s) /\
  pin_level (pins s') (pumpPin (currentPlant s)) = LOW /\
  plantCounter s' = plantCounter s /\
  wateringTime s' = elapsedTime (clock_at w (reads s)) (waterStartTime s).
Proof.
  intros Hpc He Hstop. cbv zeta.
  destruct (normal_stop_eq s Hpc He Hstop)
    as (x & -> & Hc & Hcp & Hpn & Hps & Hex & Hws & Hwt).
  rewrite handle_lcd_eq. cbn. rewrite Hcp, Hpn, Hc, Hwt, Hex.
  refine (conj _ (conj _ (conj _ (conj _ (conj _ _))))); try reflexivity.
  - unfold pin_level. by rewrite lookup_insert_eq.
  - tauto.
Qed.

(** X6.  In real seconds: with a start time and a clock reading whose
    unix seconds are non-negative [long] values, a round of the watering
    loop in which the button does not read low keeps the pump on as long
    as the clock is less than [1000 * waterTime] and less than 300000
    seconds past the start. *)
Theorem session_lasts_kiloseconds (s : State) :
  pc s = WATERING ->
  0 <= getUnixTime (clock_at w (reads s)) <= 2147483647 ->
  0 <= getUnixTime (waterStartTime s) <= 2147483647 ->
  1 <= waterTime (currentPlant s) ->
  getUnixTime (clock_at w (reads s)) - getUnixTime (waterStartTime s)
    < 1000 * waterTime (currentPlant s) ->
  getUnixTime (clock_at w (reads s)) - getUnixTime (waterStartTime s) < 300000 ->
  level_at w (S (reads s)) (uint8 (buttonPin (currentPlant s))) = HIGH ->
  pc (step w s) = WATERING /\ pins (step w s) = pins s.
Proof.
  intros Hpc Hnow Hstart Hwt Hd Hd' Hb.
  pose proof (elapsedTime_ge_iff _ _ _ Hnow Hstart Hwt) as H1.
  pose proof (elapsedTime_ge_iff (clock_at w (reads s)) (waterStartTime s) 300
                Hnow Hstart ltac:(lia)) as H2.
  assert (elapsedTime (clock_at w (reads s)) (waterStartTime s)
            < waterTime (currentPlant s)) as Hlt by lia.
  assert (elapsedTime (clock_at w (reads s)) (waterStartTime s) < ERR_WATER_TIME)
    as Herr by (unfold ERR_WATER_TIME; lia).
  rewrite step_eq, Hpc, watering_round_eq. cbv zeta.
  rewrite (proj2 (Z.leb_gt _ _) Hlt), Hb, (proj2 (Z.leb_gt _ _) Herr).
  split; reflexivity.
Qed.

(** *** Which pins [loop()] writes *)

Lemma read_plant_elem (ps : list Plant) (i : Z) (p : Plant) :
  read_plant ps i = Some p -> p ∈ ps.
Proof.
  unfold read_plant. destruct (i <? 0); [discriminate|].
  apply list_elem_of_lookup_2.
Qed.

Lemma scanned_plant_elem (s : State) :
  scanned_plant s ∈ currentPlant s :: plants s.
Proof.
  unfold scanned_plant.
  destruct (read_plant (plants s) (plantCounter s)) as [p|] eqn:E; cbn.
  - apply elem_of_cons. right. by apply read_plant_elem in E.
  - apply elem_of_cons. by left.
Qed.

Lemma not_plant_pin (s : State) (k : Z) (p : Plant) :
  ~ plant_pin s k -> p ∈ currentPlant s :: plants s ->
  uint8 (pumpPin p) <> k /\ uint8 (lightPin p) <> k.
Proof.
  intros Hk Hp. split; intros E; apply Hk; exists p; split; auto.
Qed.

Lemma pump_off_other (ps : list Plant) (i k : Z) (pn : gmap Z bool) :
  (forall p, p ∈ ps -> uint8 (pumpPin p) <> k) ->
  pump_off ps i pn !! k = pn !! k.
Proof.
  intros Hne. unfold pump_off.
  destruct (read_plant ps i) as [p|] eqn:E; [|done].
  apply lookup_insert_ne, Hne. by apply read_plant_elem in E.
Qed.

Lemma handle_error_pins (x : State) (k : Z) :
  (forall p, p ∈ plants x -> uint8 (pumpPin p) <> k) ->
  let x' := snd (handle_error w x) in
  pins x' !! k = pins x !! k \/
  (k = uint8 errorLED /\ pc x' = ERROR /\ pins x' !! k = Some HIGH).
Proof.
  intros Hne. cbv zeta. rewrite handle_error_eq.
  destruct (error x).
  - cbn. rewrite !pump_off_other by done.
    destruct (decide (uint8 errorLED = k)) as [<- | Hk].
    + right. by rewrite lookup_insert_eq.
    + left. by rewrite lookup_insert_ne.
  - left. by rewrite handle_lcd_eq.
Qed.

Lemma step_pins_frame (s : State) (k : Z) :
  ~ plant_pin s k ->
  pins (step w s) !! k = pins s !! k \/
  (k = uint8 errorLED /\ pc (step w s) = ERROR /\ pins (step w s) !! k = Some HIGH).
Proof.
  intros Hk.
  assert (forall p, p ∈ plants s -> uint8 (pumpPin p) <> k) as Hreg.
  { intros p Hp. apply (not_plant_pin s k p Hk). apply elem_of_cons. by right. }
  destruct (not_plant_pin s k _ Hk (scanned_plant_elem s)) as [Hsp Hsl].
  destruct (not_plant_pin s k (currentPlant s) Hk) as [Hcp _];
    [apply elem_of_cons; by left|].
  rewrite step_eq. destruct (pc s).
  - rewrite scan_eq. destruct (level_at w _ _).
    + rewrite after_button_eq.
      destruct (watering (scanned w s)).
      * left. cbn. by rewrite !lookup_insert_ne.
      * match goal with |- context [handle_error w ?x] =>
          destruct (handle_error_pins x k) as [E | E]; [exact Hreg | left | right; exact E]
        end.
        rewrite E. cbn. by rewrite lookup_insert_ne.
    + left. cbn. by rewrite lookup_insert_ne.
  - rewrite release_wait_eq. destruct (level_at w _ _).
    + left. rewrite after_button_eq. cbn. by rewrite lookup_insert_ne.
    + by left.
  - rewrite watering_round_eq. cbv zeta.
    assert (forall x, plants x = plants s -> pins x = pins s ->
              currentPlant x = currentPlant s ->
              let x' := snd (finish_watering w x) in
              pins x' !! k = pins s !! k \/
              (k = uint8 errorLED /\ pc x' = ERROR /\ pins x' !! k = Some HIGH)) as Hfin.
    { intros x Hps Hpn Hc. cbv zeta. rewrite finish_watering_eq.
      destruct (handle_error_pins (finished x) k) as [E | E].
      - cbn [finished plants set_currentPlant set_screen set_pins]. by rewrite Hps.
      - left. rewrite E. cbn. rewrite Hpn, Hc. by rewrite lookup_insert_ne.
      - by right. }
    destruct (waterTime (currentPlant s) <=? _); [by apply Hfin|].
    destruct (level_at w _ _); [|by apply Hfin].
    destruct (ERR_WATER_TIME <=? _); [by apply Hfin | by left].
  - rewrite error_wait_eq. destruct (level_at w _ _); [by left|].
    left. by rewrite handle_lcd_eq.
Qed.

Lemma step_currentPlant_pins (s : State) :
  exists q, q ∈ currentPlant s :: plants s /\
            pumpPin (currentPlant (step w s)) = pumpPin q /\
            lightPin (currentPlant (step w s)) = lightPin q.
Proof.
  assert (currentPlant s ∈ currentPlant s :: plants s) as Hcp
    by (apply elem_of_cons; by left).
  destruct (pc s) eqn:Hpc.
  - exists (scanned_plant s). split; [apply scanned_plant_elem|].
    by rewrite step_currentPlant_idle.
  - exists (currentPlant s). split; [done|].
    rewrite step_eq, Hpc, release_wait_eq. destruct (level_at w _ _); [|done].
    by rewrite after_button_eq.
  - exists (currentPlant s). split; [done|].
    rewrite step_eq, Hpc, watering_round_eq. cbv zeta.
    assert (forall x, currentPlant x = currentPlant s ->
              pumpPin (currentPlant (snd (finish_watering w x))) = pumpPin (currentPlant s) /\
              lightPin (currentPlant (snd (finish_watering w x))) = lightPin (currentPlant s))
      as Hfin.
    { intros x Hx. rewrite finish_watering_eq.
      destruct (handle_error_frame (finished x)) as (_&_&_&_&->&_).
      cbn. by rewrite Hx. }
    destruct (waterTime (currentPlant s) <=? _); [by apply Hfin|].
    destruct (level_at w _ _); [|by apply Hfin].
    destruct (ERR_WATER_TIME <=? _); [by apply Hfin | done].
  - exists (currentPlant s). split; [done|].
    rewrite step_eq, Hpc, error_wait_eq. destruct (level_at w _ _); [done|].
    by rewrite handle_lcd_eq.
Qed.

Lemma plant_pin_step (s : State) (k : Z) :
  plant_pin (step w s) k -> plant_pin s k.
Proof.
  intros (p & Hp & Hk). rewrite step_plants in Hp.
  apply elem_of_cons in Hp as [-> | Hp].
  - destruct (step_currentPlant_pins s) as (q & Hq & Hpump & Hlight).
    exists q. split; [done|]. by rewrite <- Hpump, <- Hlight.
  - exists p. split; [|done]. apply elem_of_cons. by right.
Qed.

(** X7.  [loop()] writes no pin but the pump and light pins of the
    plants and the error LED: a pin that is neither of these reads the
    same after any number of steps. *)
Theorem loop_writes_only_plant_pins (s : State) (k : Z) (n : nat) :
  ~ plant_pin s k -> k <> uint8 errorLED ->
  pins (steps w n s) !! k = pins s !! k.
Proof.
  revert s. induction n as [|n IH]; intros s Hk Hled; [done|].
  cbn [steps]. rewrite IH; [| by intros Hp; apply plant_pin_step in Hp | done].
  destruct (step_pins_frame s k Hk) as [E | (E & _)]; done.
Qed.

(** X8.  Nothing in [loop()] writes the error LED low: when no plant
    uses its pin, an error LED that reads high still reads high after
    any number of steps, the reset of the error included. *)
Theorem error_led_never_cleared (s : State) (n : nat) :
  ~ plant_pin s (uint8 errorLED) ->
  pins s !! uint8 errorLED = Some HIGH ->
  pins (steps w n s) !! uint8 errorLED = Some HIGH /\
  pin_level (pins (steps w n s)) errorLED = HIGH.
Proof.
  revert s. induction n as [|n IH]; intros s Hk Hhigh.
  - cbn [steps]. unfold pin_level. by rewrite Hhigh.
  - cbn [steps]. apply IH.
    + intros Hp. by apply plant_pin_step in Hp.
    + destruct (step_pins_frame s _ Hk) as [E | (_ & _ & E)]; [by rewrite E | done].
Qed.

(** *** The shipped configuration *)

Lemma reachable_plants (s : State) :
  reachable w s ->
  plants s =
  [with_lastWatered (clock_at w 1) gBonsai;
   with_lastWatered (clock_at w 2) bBonsai;
   with_lastWatered (clock_at w 3) succulent].
Proof.
  induction 1 as [|s Hr IH].
  - by rewrite boot_eq.
  - by rewrite step_plants.
Qed.

(** X9.  No step of [loop()] writes the registry: in every state the
    sketch reaches, the registry is the three plants of lines 30-32 with
    the [lastWatered] times that [setup()] sampled, so the dryness test
    of every scan measures from [setup()], whatever was watered since. *)
Theorem registry_fixed (s : State) :
  reachable w s ->
  plants s =
  [with_lastWatered (clock_at w 1) gBonsai;
   with_lastWatered (clock_at w 2) bBonsai;
   with_lastWatered (clock_at w 3) succulent].
Proof. apply reachable_plants. Qed.

(** X10.  In every state the sketch reaches, the read
    [plants[plantCounter]] of line 118 is inside the array, and the scan
    works on that entry. *)
Theorem cursor_read_in_bounds (s : State) :
  reachable w s ->
  0 <= plantCounter s < numPlants /\
  exists p, read_plant (plants s) (plantCounter s) = Some p /\
            p ∈ plants s /\ scanned_plant s = p.
Proof.
  intros Hr. destruct (reachable_inv s Hr) as ((t0 & t1 & t2 & E) & Hc & _).
  split; [done|]. unfold scanned_plant. rewrite E.
  assert (plantCounter s = 0 \/ plantCounter s = 1 \/ plantCounter s = 2)
    as [-> | [-> | ->]] by (unfold numPlants in Hc; lia);
    eexists; (split; [reflexivity|]); (split; [|reflexivity]);
    rewrite !elem_of_cons; tauto.
Qed.

(** X11.  In every state the sketch reaches, a pass from the top of
    [loop()] writes exactly one pin, the light of the scanned plant, and
    sets it high exactly when the plant is due; the lights of the other
    plants keep what their own last scan wrote. *)
Theorem scan_sets_light (s : State) :
  reachable w s -> pc s = IDLE ->
  pins (step w s) = <[uint8 (lightPin (scanned_plant s)) := is_due w s]> (pins s) /\
  pin_level (pins (step w s)) (lightPin (scanned_plant s)) = is_due w s.
Proof.
  intros Hr Hpc. destruct (reachable_inv s Hr) as (_ & _ & He & Hinv).
  rewrite Hpc in Hinv. destruct Hinv as [Hw _].
  assert (pins (step w s) =
          <[uint8 (lightPin (scanned_plant s)) := is_due w s]> (pins s)) as E.
  { rewrite step_eq, Hpc, scan_eq. destruct (level_at w _ _); [|reflexivity].
    rewrite after_button_eq.
    cbn [scanned watering set_reads set_pins set_currentPlant set_currentTime].
    rewrite Hw, handle_error_eq.
    cbn [scanned error set_plantCounter set_reads set_pins set_currentPlant
         set_currentTime].
    by rewrite He, handle_lcd_eq. }
  split; [exact E|]. rewrite E. unfold pin_level. by rewrite lookup_insert_eq.
Qed.

Lemma shipped_pins (s : State) (k : Z) :
  reachable w s -> plant_pin s k ->
  k = 0 \/ k = 6 \/ k = 4 \/ k = 7 \/ k = 3 \/ k = 255 \/ k = 2.
Proof.
  intros Hr. revert k. induction Hr as [|s Hr IH]; intros k Hk.
  - destruct Hk as (p & Hp & Hk). rewrite boot_eq in Hp. cbn in Hp.
    rewrite !elem_of_cons, elem_of_nil in Hp.
    destruct Hp as [-> | [-> | [-> | [-> | []]]]];
      destruct Hk as [-> | ->]; vm_compute; tauto.
  - apply IH. by apply plant_pin_step.
Qed.

(** X12.  With the shipped plants the error mode is dead code: every
    [waterTime] is below [ERR_WATER_TIME], so the stop test of line 179
    ends each session before the test of line 185 can hold.  In every
    state the sketch reaches the error flag is clear, the loop is not at
    the error wait, and the error LED reads low. *)
Theorem error_mode_never_entered (s : State) :
  reachable w s ->
  error s = false /\ pc s <> ERROR /\
  pins s !! uint8 errorLED = Some LOW /\ pin_level (pins s) errorLED = LOW.
Proof.
  intros Hr. destruct (error_unreachable s Hr) as [He Hpc].
  split; [done|]. split; [done|].
  assert (pins s !! uint8 errorLED = Some LOW) as Hled.
  { clear He Hpc. induction Hr as [|s Hr IH].
    - rewrite boot_eq. cbn. by rewrite lookup_insert_eq.
    - destruct (step_pins_frame s (uint8 errorLED)) as [E | (_ & E & _)].
      + intros Hp. apply (shipped_pins s _ Hr) in Hp. vm_compute in Hp.
        intuition discriminate.
      + by rewrite E.
      + destruct (error_unreachable (step w s)) as [_ Hne];
          [by apply reach_step | done]. }
  split; [done|]. unfold pin_level. by rewrite Hled.
Qed.

(** *** The display *)

Lemma handle_error_display (x : State) :
  let x' := snd (handle_error w x) in
  (lcdCounter x' = lcdCounter x /\ screen x' = ErrorBanner) \/
  (lcdCounter x' = lcd_next x /\
   screen x' = PlantReport (read_plant (plants x) (lcd_next x))).
Proof.
  cbv zeta. rewrite handle_error_eq. destruct (error x).
  - by left.
  - right. by rewrite handle_lcd_eq.
Qed.

(** A step either leaves the display cursor alone, and then keeps the
    screen or shows something that is not a plant report, or it runs
    lines 243-250 from a state with the same cursor and registry. *)
Lemma step_display (s : State) :
  (lcdCounter (step w s) = lcdCounter s /\
   (screen (step w s) = screen s \/ forall r, screen (step w s) <> PlantReport r)) \/
  (exists x, lcdCounter x = lcdCounter s /\ plants x = plants s /\
             lcdLastChange x = lcdLastChange s /\
             lcdCounter (step w s) = lcd_next x /\
             screen (step w s) = PlantReport (read_plant (plants s) (lcd_next x))).
Proof.
  assert (forall x, lcdCounter x = lcdCounter s -> plants x = plants s ->
            lcdLastChange x = lcdLastChange s ->
            let x' := snd (handle_error w x) in
            (lcdCounter x' = lcdCounter s /\
             (screen x' = screen s \/ forall r, screen x' <> PlantReport r)) \/
            (exists y, lcdCounter y = lcdCounter s /\ plants y = plants s /\
                       lcdLastChange y = lcdLastChange s /\
                       lcdCounter x' = lcd_next y /\
                       screen x' = PlantReport (read_plant (plants s) (lcd_next y))))
    as Herr.
  { intros x Hc Hps Hl. cbv zeta.
    destruct (handle_error_display x) as [[E1 E2] | [E1 E2]].
    - left. rewrite E1, E2. split; [done|]. right. discriminate.
    - right. exists x. rewrite E1, E2, Hps. done. }
  rewrite step_eq. destruct (pc s).
  - rewrite scan_eq. destruct (level_at w _ _).
    + rewrite after_button_eq. destruct (watering (scanned w s)).
      * left. cbn. split; [done|]. right. discriminate.
      * by apply Herr.
    + left. cbn. split; [done|]. right. discriminate.
  - rewrite release_wait_eq. destruct (level_at w _ _).
    + left. rewrite after_button_eq. cbn. split; [done|]. right. discriminate.
    + left. cbn. split; [done|]. by left.
  - rewrite watering_round_eq. cbv zeta.
    assert (forall x, lcdCounter x = lcdCounter s -> plants x = plants s ->
              lcdLastChange x = lcdLastChange s ->
              let x' := snd (finish_watering w x) in
              (lcdCounter x' = lcdCounter s /\
               (screen x' = screen s \/ forall r, screen x' <> PlantReport r)) \/
              (exists y, lcdCounter y = lcdCounter s /\ plants y = plants s /\
                         lcdLastChange y = lcdLastChange s /\
                         lcdCounter x' = lcd_next y /\
                         screen x' = PlantReport (read_plant (plants s) (lcd_next y))))
      as Hfin.
    { intros x Hc Hps Hl. cbv zeta. rewrite finish_watering_eq. by apply Herr. }
    destruct (waterTime (currentPlant s) <=? _); [by apply Hfin|].
    destruct (level_at w _ _); [|by apply Hfin].
    destruct (ERR_WATER_TIME <=? _); [by apply Hfin|].
    left. cbn. split; [done|]. right. discriminate.
  - rewrite error_wait_eq. destruct (level_at w _ _).
    + left. cbn. split; [done|]. by left.
    + right. eexists. rewrite handle_lcd_eq. cbn. done.
Qed.

Lemma read_plant_outside (ps : list Plant) (i : Z) :
  Z.of_nat (length ps) <= i -> read_plant ps i = None.
Proof.
  intros Hi. unfold read_plant.
  destruct (i <? 0) eqn:E; [done|].
  apply lookup_ge_None. lia.
Qed.

Lemma read_plant_inside (ps : list Plant) (i : Z) :
  0 <= i < Z.of_nat (length ps) -> is_Some (read_plant ps i).
Proof.
  intros Hi. unfold read_plant.
  rewrite (proj2 (Z.ltb_ge _ _)) by lia.
  apply lookup_lt_is_Some. lia.
Qed.

Lemma lcd_next_above (x : State) :
  numPlants <= lcdCounter x < 32767 ->
  lcdCounter x <= lcd_next x <= lcdCounter x + 1.
Proof.
  unfold lcd_next, numPlants, int16. intros Hc.
  rewrite (Z.mod_small (lcdCounter x + 1 + 32768)) by lia.
  replace (lcdCounter x + 1 + 32768 - 32768) with (lcdCounter x + 1) by lia.
  destruct (LCD_CHANGE_TIME <=? _); [|lia].
  destruct (lcdCounter x + 1 =? 3) eqn:E; [apply Z.eqb_eq in E|]; lia.
Qed.

Lemma lcd_next_inside (x : State) :
  0 <= lcdCounter x < numPlants ->
  0 <= lcd_next x < numPlants /\
  (lcd_next x = lcdCounter x \/ lcd_next x = (lcdCounter x + 1) `mod` numPlants).
Proof.
  unfold lcd_next, numPlants, int16. intros Hc.
  rewrite (Z.mod_small (lcdCounter x + 1 + 32768)) by lia.
  replace (lcdCounter x + 1 + 32768 - 32768) with (lcdCounter x + 1) by lia.
  destruct (LCD_CHANGE_TIME <=? _); [|split; [lia | by left]].
  destruct (lcdCounter x + 1 =? 3) eqn:E.
  - apply Z.eqb_eq in E. split; [lia|]. right.
    replace (lcdCounter x + 1) with 3 by lia. reflexivity.
  - apply Z.eqb_neq in E. split; [lia|]. right.
    by rewrite Z.mod_small by lia.
Qed.

Lemma steps_plants (n : nat) (s : State) : plants (steps w n s) = plants s.
Proof.
  revert s. induction n as [|n IH]; intros s; [done|].
  cbn [steps]. by rewrite IH, step_plants.
Qed.

Lemma display_outside_steps (n m : nat) (s : State) :
  Z.of_nat (m + n) <= 32763 ->
  length (plants s) = 3%nat ->
  numPlants <= lcdCounter s <= numPlants + Z.of_nat m ->
  (forall r, screen s = PlantReport r -> r = None) ->
  numPlants <= lcdCounter (steps w n s) <= numPlants + Z.of_nat (m + n) /\
  (forall r, screen (steps w n s) = PlantReport r -> r = None).
Proof.
  revert m s. induction n as [|n IH]; intros m s Hmn Hlen Hc Hscr.
  - cbn [steps]. rewrite Nat.add_0_r. done.
  - cbn [steps].
    replace (m + S n)%nat with (S m + n)%nat by lia.
    apply IH; [lia | by rewrite step_plants | |].
    + destruct (step_display s) as [[E _] | (x & Ex & _ & _ & E & _)].
      * rewrite E. lia.
      * rewrite E. pose proof (lcd_next_above x) as Hx.
        rewrite Ex in Hx. unfold numPlants in *. lia.
    + intros r Hr.
      destruct (step_display s) as [[_ [E | E]] | (x & Ex & _ & _ & Ec & E)].
      * rewrite E in Hr. by apply Hscr.
      * by apply E in Hr.
      * rewrite E in Hr. injection Hr as <-.
        apply read_plant_outside. rewrite Hlen.
        pose proof (lcd_next_above x) as Hx.
        rewrite Ex in Hx. unfold numPlants in *. lia.
Qed.

(** X13.  The display cursor starts at [numPlants] and the wrap test of
    line 245 misses it, so it only climbs: through the first 32763 steps
    after [setup()], whatever the inputs, the cursor is at or above
    [numPlants], the read [plants[lcdCounter]] is outside the array, and
    no plant report on the screen comes from a registry entry. *)
Theorem display_never_shows_a_plant (n : nat) :
  Z.of_nat n <= 32763 ->
  let s := steps w n (boot w) in
  numPlants <= lcdCounter s /\
  read_plant (plants s) (lcdCounter s) = None /\
  (forall r, screen s = PlantReport r -> r = None).
Proof.
  intros Hn. cbv zeta.
  destruct (display_outside_steps n 0 (boot w)) as [Hc Hscr].
  - lia.
  - by rewrite boot_eq.
  - rewrite boot_eq. cbn. lia.
  - rewrite boot_eq. cbn. discriminate.
  - split; [lia|]. split; [|done].
    apply read_plant_outside. rewrite steps_plants.
    replace (Z.of_nat (length (plants (boot w)))) with 3 by (by rewrite boot_eq).
    unfold numPlants in Hc. lia.
Qed.

Lemma step_cursor_inside (s : State) :
  0 <= lcdCounter s < numPlants ->
  0 <= lcdCounter (step w s) < numPlants /\
  (lcdCounter (step w s) = lcdCounter s \/
   lcdCounter (step w s) = (lcdCounter s + 1) `mod` numPlants).
Proof.
  intros Hc.
  destruct (step_display s) as [[E _] | (x & Ex & _ & _ & E & _)].
  - rewrite E. split; [done | by left].
  - rewrite E. pose proof (lcd_next_inside x) as Hx. rewrite Ex in Hx.
    by apply Hx.
Qed.

(** X14.  Once the display cursor is inside the array it stays inside:
    each step leaves it where it is or moves it from [c] to
    [(c + 1) mod numPlants], so after any number of steps the read
    [plants[lcdCounter]] is inside a registry of [numPlants] entries. *)
Theorem display_cursor_stays_inside (s : State) (n : nat) :
  0 <= lcdCounter s < numPlants ->
  length (plants s) = Z.to_nat numPlants ->
  (lcdCounter (step w s) = lcdCounter s \/
   lcdCounter (step w s) = (lcdCounter s + 1) `mod` numPlants) /\
  0 <= lcdCounter (steps w n s) < numPlants /\
  is_Some (read_plant (plants (steps w n s)) (lcdCounter (steps w n s))).
Proof.
  intros Hc Hlen. split; [by apply step_cursor_inside|].
  assert (0 <= lcdCounter (steps w n s) < numPlants) as Hn.
  { clear Hlen. revert s Hc. induction n as [|n IH]; intros s Hc; [done|].
    cbn [steps]. apply IH. by apply step_cursor_inside. }
  split; [done|].
  apply read_plant_inside. rewrite steps_plants, Hlen.
  unfold numPlants in *. cbn. lia.
Qed.

(** *** The report *)

(** X15.  The three droplet icons of a report are always the same glyph:
    all three are drops exactly when [elapsedTime] from the plant's
    [lastWatered] to the clock reading is zero or negative, and all
    three are crosses otherwise. *)
Theorem droplets_agree (t1 t2 : Time) (p : Plant) :
  droplet2 (lcd_report t1 t2 p) = droplet1 (lcd_report t1 t2 p) /\
  droplet3 (lcd_report t1 t2 p) = droplet1 (lcd_report t1 t2 p) /\
  (droplet1 (lcd_report t1 t2 p) = Drop <-> elapsedTime t1 (lastWatered p) <= 0).
Proof.
  cbn. unfold droplet, double_lt.
  set (e := elapsedTime t1 (lastWatered p)).
  destruct (e * 1 <? 1) eqn:E1; destruct (e * 100 <? 67) eqn:E2;
    destruct (e * 100 <? 33) eqn:E3;
    rewrite ?Z.ltb_lt, ?Z.ltb_ge in *;
    (split; [|split; [|split]]); try done; try lia.
Qed.

(** X16.  In every state the sketch reaches, the report of a registry
    entry never shows the needs-water banner: its bottom row is the
    hours-left line; and the last-watered lines, drawn only for a plant
    with a pump pin at or above 0, always give a duration of 0 and the
    time [setup()] sampled. *)
Theorem registry_report (s : State) (p : Plant) (t1 t2 : Time) :
  reachable w s -> p ∈ plants s ->
  (exists h, bottom_row (lcd_report t1 t2 p) = HoursLeft h (maxDryTime p)) /\
  (history (lcd_report t1 t2 p) = None <-> pumpPin p < 0) /\
  (forall t d, history (lcd_report t1 t2 p) = Some (t, d) ->
     d = 0 /\ exists i : nat, (1 <= i <= 3)%nat /\ t = clock_at w i).
Proof.
  intros Hr Hp. destruct (registry_never_due s p Hr Hp) as [Hnw Hfor].
  cbn. rewrite Hnw. split; [by eexists|]. split.
  - destruct (0 <=? pumpPin p) eqn:E.
    + apply Z.leb_le in E. split; [discriminate | lia].
    + apply Z.leb_gt in E. done.
  - intros t d Hh. destruct (0 <=? pumpPin p); [|discriminate].
    injection Hh as <- <-. split; [done|].
    rewrite (reachable_plants s Hr), !elem_of_cons, elem_of_nil in Hp.
    destruct Hp as [-> | [-> | [-> | []]]];
      [exists 1%nat | exists 2%nat | exists 3%nat]; (split; [lia | reflexivity]).
Qed.

(** *** Times measured from [setup()] *)

Lemma reachable_lcdLastChange (s : State) :
  reachable w s -> lcdLastChange s = clock_at w 0.
Proof.
  induction 1 as [|s Hr IH].
  - by rewrite boot_eq.
  - by rewrite step_lcdLastChange.
Qed.

(** X17.  In every state the sketch reaches, the plant under the cursor
    is due exactly when the clock sample of the scan is at least
    [1000 * maxDryTime] seconds past the sample [setup()] took for that
    plant (for unix seconds that are non-negative [long] values):
    watering the plant does not move that origin. *)
Theorem is_due_from_setup (s : State) :
  reachable w s ->
  let i := Z.to_nat (plantCounter s + 1) in
  0 <= getUnixTime (clock_at w (reads s)) <= 2147483647 ->
  0 <= getUnixTime (clock_at w i) <= 2147483647 ->
  (1 <= i <= 3)%nat /\
  lastWatered (scanned_plant s) = clock_at w i /\
  (is_due w s = true <->
   1000 * maxDryTime (scanned_plant s)
     <= getUnixTime (clock_at w (reads s)) - getUnixTime (clock_at w i)).
Proof.
  intros Hr i Hnow Hset. subst i.
  destruct (reachable_inv s Hr) as (_ & Hc & _).
  pose proof (reachable_plants s Hr) as E.
  unfold is_due, scanned_plant in *. rewrite E.
  assert (plantCounter s = 0 \/ plantCounter s = 1 \/ plantCounter s = 2)
    as [Hp | [Hp | Hp]] by (unfold numPlants in Hc; lia);
    rewrite Hp in *; cbn in *;
    (split; [lia|]); (split; [reflexivity|]);
    rewrite Z.leb_le; apply elapsedTime_ge_iff; done.
Qed.

(** X18.  In every state the sketch reaches, [lcdLastChange] is still
    the time [setup()] sampled: no step of [loop()] assigns it, so the
    rotation test of line 243 always measures from [setup()]. *)
Theorem rotation_measured_from_setup (s : State) (n : nat) :
  reachable w s ->
  lcdLastChange s = clock_at w 0 /\
  lcdLastChange (steps w n s) = clock_at w 0.
Proof.
  intros Hr. split; [by apply reachable_lcdLastChange|].
  revert s Hr. induction n as [|n IH]; intros s Hr.
  - by apply reachable_lcdLastChange.
  - cbn [steps]. apply IH. by apply reach_step.
Qed.

(** X19.  A session ended by the button leaves the cursor on the same
    plant, and the next pass scans that plant again: if its button still
    reads low at that scan, the pass goes straight to the wait for the
    release, from which a new session starts. *)
Theorem early_stop_rearms (s : State) :
  pc s = WATERING -> error s = false ->
  level_at w (S (reads s)) (uint8 (buttonPin (currentPlant s))) = LOW ->
  let s1 := step w s in
  level_at w (S (reads s1)) (uint8 (buttonPin (scanned_plant s1))) = LOW ->
  pc s1 = IDLE /\ plantCounter s1 = plantCounter s /\
  pc (step w s1) = CONFIRMING /\ plantCounter (step w s1) = plantCounter s.
Proof.
  intros Hpc He Hl s1 Hl1.
  assert (pc s1 = IDLE /\ plantCounter s1 = plantCounter s) as [Hpc1 Hc1].
  { subst s1.
    destruct (normal_stop_eq s Hpc He (or_intror Hl)) as (x & -> & Hc & _).
    rewrite handle_lcd_eq. cbn. done. }
  split; [done|]. split; [done|].
  rewrite step_eq, Hpc1, scan_eq, Hl1. cbn. done.
Qed.

(** *** The registry across a fault stop *)

(** C6.  A session that ends in a fault stop leaves the registry as it
    was, so every plant's [lastWatered] and [lastWateredFor] are
    unchanged by it and stay so for any number of further steps; and
    every later scan, at whatever entry the cursor is on, takes its
    dryness test and its working record from the entry's old
    [lastWatered] and [lastWateredFor]: the failed watering does not
    reset the dryness clock. *)
Theorem fault_stop_keeps_registry (s : State) (n : nat) :
  pc s = WATERING ->
  elapsedTime (clock_at w (reads s)) (waterStartTime s) < waterTime (currentPlant s) ->
  level_at w (S (reads s)) (uint8 (buttonPin (currentPlant s))) = HIGH ->
  ERR_WATER_TIME <= elapsedTime (clock_at w (reads s)) (waterStartTime s) ->
  let s' := step w s in
  let s2 := steps w n s' in
  pc s' = ERROR /\ error s' = true /\
  plants s' = plants s /\
  plants s2 = plants s /\
  (forall i, lastWatered <$> read_plant (plants s2) i
             = lastWatered <$> read_plant (plants s) i /\
             lastWateredFor <$> read_plant (plants s2) i
             = lastWateredFor <$> read_plant (plants s) i) /\
  forall p,
    pc s2 = IDLE ->
    read_plant (plants s) (plantCounter s2) = Some p ->
    is_due w s2 = (maxDryTime p <=? elapsedTime (clock_at w (reads s2)) (lastWatered p)) /\
    lastWatered (currentPlant (step w s2)) = lastWatered p /\
    lastWateredFor (currentPlant (step w s2)) = lastWateredFor p.
Proof.
  intros Hpc Hlt Hb Herr s' s2.
  assert (plants s' = plants s) as Hs' by apply step_plants.
  assert (plants s2 = plants s) as Hs2.
  { subst s2. by rewrite steps_plants. }
  assert (pc s' = ERROR /\ error s' = true) as [Hpc' He'].
  { subst s'. by rewrite fault_stop_eq. }
  refine (conj Hpc' (conj He' (conj Hs' (conj Hs2 (conj _ _))))).
  - intros i. by rewrite Hs2.
  - intros p Hidle Hp. rewrite <- Hs2 in Hp. split.
    + unfold is_due, scanned_plant. by rewrite Hp.
    + by apply scan_reloads.
Qed.

End Proofs.

(** ** The claims at concrete inputs *)

(** The overrun of [overrun_state] enters ERROR, and two further rounds
    without a reset keep it there with the pumps low. *)
Lemma overrun_enters_error_witness :
  let s' := steps overrun_world 3 overrun_state in
  pc s' = ERROR /\ error s' = true /\ watering s' = false /\
  forall p, p ∈ plants s' -> pin_level (pins s') (pumpPin p) = LOW.
Proof.
  apply (@overrun_enters_error unix_clock overrun_world overrun_state 2).
  - reflexivity.
  - reflexivity.
  - vm_compute. reflexivity.
  - reflexivity.
  - vm_compute. discriminate.
  - intros k Hk. reflexivity.
Defined.

(** The state in the middle of the session of [session_world] is
    reachable; there the left bonsai's pump is the one pump that is on. *)
Lemma one_session_at_a_time_witness :
  let s := steps session_world 2 (boot session_world) in
  (length (pumps_on s) <= 1)%nat /\
  (watering s = true <-> pc s = WATERING) /\
  forall p, p ∈ pumps_on s ->
    pc s = WATERING /\ pumpPin p = pumpPin (currentPlant s).
Proof.
  apply (@one_session_at_a_time unix_clock session_world).
  exact (reach_step _ _ (reach_step _ _ (reach_boot _))).
Defined.

(** [latched_state] stays in ERROR for ten rounds without a reset. *)
Lemma error_latched_witness :
  pc (steps overrun_world 10 latched_state) = ERROR /\
  error (steps overrun_world 10 latched_state) = true.
Proof.
  destruct (@error_latched unix_clock overrun_world latched_state) as [Hstay _].
  - vm_compute. reflexivity.
  - destruct (Hstay 10%nat) as (_ & Hpc & Herr).
    + intros k Hk. reflexivity.
    + split; [exact Hpc | exact Herr].
Defined.

(** Two times 2000 seconds apart, in both orders. *)
Lemma elapsedTime_signed_witness :
  0 < @elapsedTime unix_clock 1002000 1000000 /\
  @elapsedTime unix_clock 1000000 1002000 < 0.
Proof.
  destruct (@elapsedTime_signed unix_clock 1002000 1000000) as (_ & Hpos & _).
  - vm_compute. split; discriminate.
  - vm_compute. split; discriminate.
  - destruct (@elapsedTime_signed unix_clock 1000000 1002000)
      as (_ & _ & _ & Hneg & _).
    + vm_compute. split; discriminate.
    + vm_compute. split; discriminate.
    + split; [apply Hpos | apply Hneg]; vm_compute; discriminate.
Defined.

(** C7 as stated fails: for an end time 2000 seconds before the start
    time [elapsedTime] is negative, not clamped at zero. *)
Lemma elapsedTime_negative :
  @elapsedTime unix_clock 1000000 1002000 < 0.
Proof. vm_compute. reflexivity. Qed.

(** From [boot] with no button pressed the cursor goes 0, 1, 2, 0. *)
Lemma scanner_round_robin_witness :
  plantCounter (step quiet_world (boot quiet_world)) = 1 /\
  plantCounter (steps quiet_world 3 (boot quiet_world)) = 0.
Proof.
  destruct (@scanner_round_robin unix_clock quiet_world (boot quiet_world))
    as [Hone Hmany].
  - reflexivity.
  - reflexivity.
  - vm_compute. split; [discriminate | reflexivity].
  - split.
    + apply Hone. reflexivity.
    + apply (Hmany eq_refl (fun _ _ => eq_refl) 3%nat).
Defined.

(** C3 at a session with an early stop.  In [session_world] the left
    bonsai is watered from 1000200 until the button is pressed again at
    an elapsed time of 50.  The pump is on during the session and off
    after it, and the working record [currentPlant] gets the start time
    and the duration; but the registry entry [plants[0]] still has the
    time of [setup()] and the duration 0, and the next scan loads that
    entry over the working record. *)
Theorem normal_stop_registry_stale :
  let s2 := steps session_world 2 (boot session_world) in
  let s3 := step session_world s2 in
  let s4 := step session_world s3 in
  pc s2 = WATERING /\ pin_level (pins s2) 6 = HIGH /\
  waterStartTime s2 = 1000200 /\
  pc s3 = IDLE /\ pin_level (pins s3) 6 = LOW /\
  wateringTime s3 = 50 /\
  lastWatered (currentPlant s3) = 1000200 /\
  lastWateredFor (currentPlant s3) = 50 /\
  lastWatered <$> read_plant (plants s3) 0 = Some 1000000 /\
  lastWateredFor <$> read_plant (plants s3) 0 = Some 0 /\
  plantCounter s3 = 0 /\
  lastWatered (currentPlant s4) = 1000000 /\
  lastWateredFor (currentPlant s4) = 0.
Proof. vm_compute. repeat split. Qed.

(** C4 at a scan of a dry plant.  In [dry_world] the first scan finds
    the left bonsai due: the dryness test holds, its light (pin 4) is
    lit and the working record has [needsWater] set; the registry entry
    [plants[0]], which the display reads, still has [needsWater] clear. *)
Theorem scan_registry_not_marked :
  let s0 := boot dry_world in
  let s1 := step dry_world s0 in
  is_due dry_world s0 = true /\
  pin_level (pins s1) (lightPin (scanned_plant s0)) = HIGH /\
  needsWater (currentPlant s1) = true /\
  name (currentPlant s1) = "LEFT BONSAI" /\
  needsWater <$> read_plant (plants s1) 0 = Some false.
Proof. vm_compute. repeat split. Qed.

(** C8 at two runs.  Four seconds after [setup()] the cursor has not
    moved; 4000000 seconds after it the cursor moves, [lcdLastChange]
    stays at the time of [setup()], and the pass one second later moves
    the cursor again. *)
Theorem display_rotation_off_schedule :
  (let s0 := boot four_seconds_world in
   let s1 := step four_seconds_world s0 in
   getUnixTime (currentTime (scanned four_seconds_world s0))
     - getUnixTime (lcdLastChange s0) = 4 /\
   lcdCounter s0 = 3 /\ lcdCounter s1 = 3) /\
  (let s0 := boot long_wait_world in
   let s1 := step long_wait_world s0 in
   let s2 := step long_wait_world s1 in
   lcdCounter s0 = 3 /\ lcdLastChange s0 = 1000000 /\
   lcdCounter s1 = 4 /\ lcdLastChange s1 = 1000000 /\
   getUnixTime (currentTime (scanned long_wait_world s1))
     - getUnixTime (currentTime (scanned long_wait_world s0)) = 1 /\
   lcdCounter s2 = 5 /\ lcdLastChange s2 = 1000000).
Proof. vm_compute. repeat split. Qed.

(** ** The further properties at concrete inputs *)

(** Two times 300000 seconds apart give 300. *)
Lemma elapsedTime_kiloseconds_witness :
  (300 <= @elapsedTime unix_clock 1300000 1000000 <-> 1000 * 300 <= 300000) /\
  300 <= @elapsedTime unix_clock 1300000 1000000.
Proof.
  destruct (@elapsedTime_kiloseconds unix_clock 1300000 1000000 300) as [Hiff _].
  - vm_compute. split; discriminate.
  - vm_compute. split; discriminate.
  - vm_compute. discriminate.
  - split; [exact Hiff|]. apply Hiff. vm_compute. discriminate.
Defined.

(** In [hold_world] the button is low at the first scan and for three
    more rounds. *)
Lemma press_waits_for_release_witness :
  pc (step hold_world (boot hold_world)) = CONFIRMING /\
  pc (steps hold_world 3 (step hold_world (boot hold_world))) = CONFIRMING.
Proof.
  destruct (@press_waits_for_release unix_clock hold_world (boot hold_world) 3)
    as (Hpc & _ & _ & _ & Hsteps).
  - reflexivity.
  - reflexivity.
  - intros k Hk. destruct k as [|[|[|k]]]; [reflexivity | reflexivity | reflexivity | lia].
  - split; [exact Hpc|]. rewrite Hsteps. reflexivity.
Defined.

(** In [hold_world] the release is seen in the fifth step. *)
Lemma release_starts_session_witness :
  let s := steps hold_world 4 (boot hold_world) in
  pc (step hold_world s) = WATERING /\
  pin_level (pins (step hold_world s)) 6 = HIGH.
Proof.
  destruct (@release_starts_session unix_clock hold_world
              (steps hold_world 4 (boot hold_world)))
    as (Hpc & _ & _ & Hpin & _).
  - reflexivity.
  - reflexivity.
  - split; [exact Hpc | exact Hpin].
Defined.

(** The first round of that session, 500 seconds after its start. *)
Lemma session_continues_witness :
  let s := steps hold_world 5 (boot hold_world) in
  pc (step hold_world s) = WATERING /\ pins (step hold_world s) = pins s.
Proof.
  destruct (@session_continues unix_clock hold_world
              (steps hold_world 5 (boot hold_world)))
    as (Hpc & Hpins & _).
  - reflexivity.
  - vm_compute. reflexivity.
  - vm_compute. reflexivity.
  - reflexivity.
  - split; [exact Hpc | exact Hpins].
Defined.

Lemma session_lasts_kiloseconds_witness :
  let s := steps hold_world 5 (boot hold_world) in
  pc (step hold_world s) = WATERING /\ pins (step hold_world s) = pins s.
Proof.
  apply (@session_lasts_kiloseconds unix_clock hold_world
           (steps hold_world 5 (boot hold_world))).
  - reflexivity.
  - vm_compute. split; discriminate.
  - vm_compute. split; discriminate.
  - vm_compute. discriminate.
  - vm_compute. reflexivity.
  - vm_compute. reflexivity.
  - reflexivity.
Defined.

(** The early stop of [session_world]. *)
Lemma normal_stop_witness :
  let s := steps session_world 2 (boot session_world) in
  pc (step session_world s) = IDLE /\
  pin_level (pins (step session_world s)) 6 = LOW /\
  plantCounter (step session_world s) = plantCounter s.
Proof.
  destruct (@normal_stop unix_clock session_world
              (steps session_world 2 (boot session_world)))
    as (Hpc & _ & _ & _ & Hpin & Hc & _).
  - reflexivity.
  - reflexivity.
  - right. reflexivity.
  - refine (conj Hpc (conj Hpin Hc)).
Defined.

(** The status LED (pin 9) is never written in the shipped
    configuration. *)
Lemma loop_writes_only_plant_pins_witness :
  pins (steps session_world 5 (boot session_world)) !! uint8 statusLED =
  pins (boot session_world) !! uint8 statusLED.
Proof.
  apply (@loop_writes_only_plant_pins unix_clock session_world).
  - intros Hp.
    apply (@shipped_pins unix_clock session_world _ _ (reach_boot _)) in Hp.
    vm_compute in Hp. intuition discriminate.
  - vm_compute. discriminate.
Defined.

Lemma latched_state_pins : ~ plant_pin latched_state (uint8 errorLED).
Proof.
  intros (p & Hp & Hk).
  change (p ∈ [@with_lastWateredFor unix_clock 300
                  (@with_lastWatered unix_clock 2000000 fern);
               fern; bBonsai; succulent]) in Hp.
  rewrite !elem_of_cons, elem_of_nil in Hp.
  destruct Hp as [-> | [-> | [-> | [-> | []]]]];
    vm_compute in Hk; destruct Hk; discriminate.
Qed.

(** After the fault stop of [overrun_state] the reset button is pressed:
    the loop is back at the top, and the error LED still reads high. *)
Lemma error_led_never_cleared_witness :
  pc (step reset_world latched_state) = IDLE /\
  error (step reset_world latched_state) = false /\
  pin_level (pins (steps reset_world 3 latched_state)) errorLED = HIGH.
Proof.
  destruct (@error_led_never_cleared unix_clock reset_world latched_state 3)
    as [_ Hled].
  - exact latched_state_pins.
  - reflexivity.
  - split; [reflexivity|]. split; [reflexivity | exact Hled].
Defined.

Lemma registry_fixed_witness :
  plants (steps session_world 4 (boot session_world)) =
  [@with_lastWatered unix_clock 1000000 gBonsai;
   @with_lastWatered unix_clock 1000000 bBonsai;
   @with_lastWatered unix_clock 1000000 succulent].
Proof.
  apply (@registry_fixed unix_clock session_world).
  exact (reach_step _ _ (reach_step _ _ (reach_step _ _ (reach_step _ _ (reach_boot _))))).
Defined.

Lemma cursor_read_in_bounds_witness :
  0 <= plantCounter (steps quiet_world 2 (boot quiet_world)) < numPlants.
Proof.
  apply (@cursor_read_in_bounds unix_clock quiet_world).
  exact (reach_step _ _ (reach_step _ _ (reach_boot _))).
Defined.

(** The first scan of [dry_world] lights the left bonsai's light. *)
Lemma scan_sets_light_witness :
  pin_level (pins (step dry_world (boot dry_world))) 4 = true.
Proof.
  apply (@scan_sets_light unix_clock dry_world (boot dry_world)).
  - exact (reach_boot _).
  - reflexivity.
Defined.

Lemma error_mode_never_entered_witness :
  let s := steps session_world 4 (boot session_world) in
  error s = false /\ pc s <> ERROR /\
  pins s !! uint8 errorLED = Some LOW /\ pin_level (pins s) errorLED = LOW.
Proof.
  apply (@error_mode_never_entered unix_clock session_world).
  exact (reach_step _ _ (reach_step _ _ (reach_step _ _ (reach_step _ _ (reach_boot _))))).
Defined.

Lemma display_never_shows_a_plant_witness :
  let s := steps long_wait_world 6 (boot long_wait_world) in
  numPlants <= lcdCounter s /\
  read_plant (plants s) (lcdCounter s) = None /\
  (forall r, screen s = PlantReport r -> r = None).
Proof.
  apply (@display_never_shows_a_plant unix_clock long_wait_world 6).
  vm_compute. discriminate.
Defined.

Lemma display_cursor_stays_inside_witness :
  0 <= lcdCounter (steps long_wait_world 2 cursor_inside_state) < numPlants.
Proof.
  apply (@display_cursor_stays_inside unix_clock long_wait_world cursor_inside_state 2).
  - vm_compute. split; [discriminate | reflexivity].
  - reflexivity.
Defined.

Lemma registry_report_witness :
  exists h, bottom_row (@lcd_report unix_clock 1000000 1000000
                      (@with_lastWatered unix_clock 1000000 gBonsai))
            = HoursLeft h 7200.
Proof.
  destruct (@registry_report unix_clock quiet_world (boot quiet_world)
              (@with_lastWatered unix_clock 1000000 gBonsai) 1000000 1000000)
    as [Hbottom _].
  - exact (reach_boot _).
  - rewrite boot_eq. apply list_elem_of_here.
  - exact Hbottom.
Defined.

(** The first scan of [dry_world] comes 7200000 seconds after
    [setup()]. *)
Lemma is_due_from_setup_witness :
  is_due dry_world (boot dry_world) = true <->
  1000 * 7200 <= 8200000 - 1000000.
Proof.
  apply (@is_due_from_setup unix_clock dry_world (boot dry_world)).
  - exact (reach_boot _).
  - vm_compute. split; discriminate.
  - vm_compute. split; discriminate.
Defined.

Lemma rotation_measured_from_setup_witness :
  lcdLastChange (steps long_wait_world 2 (boot long_wait_world)) = 1000000.
Proof.
  apply (@rotation_measured_from_setup unix_clock long_wait_world
           (boot long_wait_world) 2).
  exact (reach_boot _).
Defined.

(** In [held_stop_world] the button that stopped the session is still
    low at the next scan. *)
Lemma early_stop_rearms_witness :
  let s := steps held_stop_world 2 (boot held_stop_world) in
  pc (step held_stop_world s) = IDLE /\
  pc (steps held_stop_world 2 s) = CONFIRMING.
Proof.
  destruct (@early_stop_rearms unix_clock held_stop_world
              (steps held_stop_world 2 (boot held_stop_world)))
    as (Hpc & _ & Hpc2 & _).
  - reflexivity.
  - reflexivity.
  - reflexivity.
  - reflexivity.
  - split; [exact Hpc | exact Hpc2].
Defined.

(** The overrun of [overrun_state] with a reset: one step after the
    fault stop the loop is back at the top with the cursor on the fern,
    whose dryness test and working record still start from 1000000, the
    registry's [lastWatered], not from the session's start 2000000. *)
Lemma fault_stop_keeps_registry_witness :
  let s2 := steps fault_reset_world 1 (step fault_reset_world overrun_state) in
  plants s2 = plants overrun_state /\
  pc s2 = IDLE /\
  is_due fault_reset_world s2 = false /\
  lastWatered (currentPlant (step fault_reset_world s2)) = 1000000 /\
  lastWateredFor (currentPlant (step fault_reset_world s2)) = 0.
Proof.
  destruct (@fault_stop_keeps_registry unix_clock fault_reset_world overrun_state 1)
    as (_ & _ & _ & Hps & _ & Hscan).
  - reflexivity.
  - vm_compute. reflexivity.
  - reflexivity.
  - vm_compute. discriminate.
  - destruct (Hscan fern) as (Hdue & Hlw & Hlf).
    + vm_compute. reflexivity.
    + vm_compute. reflexivity.
    + refine (conj Hps (conj _ (conj _ (conj Hlw Hlf)))).
      * vm_compute. reflexivity.
      * rewrite Hdue. vm_compute. reflexivity.
Defined.

(** C1 at 300 seconds.  In [ceiling_world] a session on the left bonsai
    (target 180) has run for 300 seconds with no stop: [elapsedTime]
    gives 0, so neither test of line 179 nor the test of line 185 holds,
    and the round leaves the loop at the watering loop with the error
    flag clear and pump pin 6 high.  The same holds 300 seconds into the
    session of [overrun_state], whose plant has a target of 400. *)
Theorem ceiling_not_enforced_at_300_seconds :
  (let s2 := steps ceiling_world 2 (boot ceiling_world) in
   let s3 := step ceiling_world s2 in
   pc s2 = WATERING /\ pin_level (pins s2) 6 = HIGH /\
   getUnixTime (clock_at ceiling_world (reads s2))
     - getUnixTime (waterStartTime s2) = 300 /\
   level_at ceiling_world (S (reads s2)) (uint8 (buttonPin (currentPlant s2))) = HIGH /\
   wateringTime s3 = 0 /\
   pc s3 = WATERING /\ error s3 = false /\ watering s3 = true /\
   pin_level (pins s3) 6 = HIGH) /\
  (let s1 := step fern_ceiling_world overrun_state in
   getUnixTime (clock_at fern_ceiling_world (reads overrun_state))
     - getUnixTime (waterStartTime overrun_state) = 300 /\
   waterTime (currentPlant overrun_state) = 400 /\
   wateringTime s1 = 0 /\
   pc s1 = WATERING /\ error s1 = false /\ watering s1 = true /\
   pin_level (pins s1) 5 = HIGH).
Proof. vm_compute. repeat split. Qed.
